(** * Energen calculator scripts: the per-unit service cost model

    A shallow embedding of the pricing logic that the Python scripts of
    the repository share: the kW normalisation and the kW-range
    classifiers, the per-visit totals of the service lookup tables, the
    settings getters, the batch aggregator with its retry loop, and the
    option-year escalation.

    Conventions of the embedding.
    - Python numbers (int and float alike) are exact rationals [Q]; the
      rounding of binary64 is not modelled.  The values [float()] can
      produce beyond the rationals (the infinities and NaN) are kept, as
      [pyfloat].
    - Python strings are [string]s of ASCII characters.
    - A function that can raise returns [pyres]: [Ret v] or [Raise e].
    - A dict is a [gmap] keyed by strings. *)

From Stdlib Require Import QArith Qround Qpower Lqa ZArith Lia String Ascii List Permutation.
From stdpp Require Import gmap strings list pretty.

Import ListNotations.

(** ** Exceptions and results *)

Inductive exn : Type :=
| KeyError (key : string)
| ValueError (arg : string)
| TypeError (what : string)
| AttributeError (name : string)
| JSONDecodeError
| RequestException (msg : string).

Inductive pyres (A : Type) : Type :=
| Ret (a : A)
| Raise (e : exn).

Arguments Ret {A} a.
Arguments Raise {A} e.

#[global] Instance pyres_ret : MRet pyres := fun A a => Ret a.

#[global] Instance pyres_bind : MBind pyres := fun A B k m =>
  match m with
  | Ret a => k a
  | Raise e => Raise e
  end.

Definition raises {A : Type} (m : pyres A) : Prop :=
  exists e, m = Raise e.

(** ** Numbers *)

(** What a Python float can hold: a number, an infinity, or NaN. *)
Inductive pyfloat : Type :=
| Fin (q : Q)
| PosInf
| NegInf
| NaN.

(** [a <= b] on floats; every comparison with NaN is false. *)
Definition fle (a b : pyfloat) : bool :=
  match a, b with
  | NaN, _ | _, NaN => false
  | NegInf, _ => true
  | _, PosInf => true
  | Fin x, Fin y => Qle_bool x y
  | PosInf, _ => false
  | _, NegInf => false
  end.

(** [a > b] on floats. *)
Definition fgt (a b : pyfloat) : bool :=
  match a, b with
  | NaN, _ | _, NaN => false
  | PosInf, PosInf => false
  | PosInf, _ => true
  | _, PosInf => false
  | NegInf, _ => false
  | _, NegInf => true
  | Fin x, Fin y => negb (Qle_bool x y)
  end.

Definition Qsign (q : Q) : comparison := (0 ?= q)%Q.

Definition fmul (a b : pyfloat) : pyfloat :=
  match a, b with
  | NaN, _ | _, NaN => NaN
  | Fin x, Fin y => Fin (x * y)
  | Fin x, PosInf | PosInf, Fin x =>
      match Qsign x with Lt => PosInf | Gt => NegInf | Eq => NaN end
  | Fin x, NegInf | NegInf, Fin x =>
      match Qsign x with Lt => NegInf | Gt => PosInf | Eq => NaN end
  | PosInf, PosInf | NegInf, NegInf => PosInf
  | PosInf, NegInf | NegInf, PosInf => NegInf
  end.

Definition fadd (a b : pyfloat) : pyfloat :=
  match a, b with
  | NaN, _ | _, NaN => NaN
  | Fin x, Fin y => Fin (x + y)
  | PosInf, NegInf | NegInf, PosInf => NaN
  | PosInf, _ | _, PosInf => PosInf
  | NegInf, _ | _, NegInf => NegInf
  end.

(** Equality of floats as numbers: [Qeq] on the finite ones.  NaN is
    related to itself here, since the relation compares results of the
    model, not Python's [==]. *)
Definition feq (a b : pyfloat) : Prop :=
  match a, b with
  | Fin x, Fin y => (x == y)%Q
  | PosInf, PosInf | NegInf, NegInf | NaN, NaN => True
  | _, _ => False
  end.

(** [round(x, ndigits)] with one digit: to the nearest tenth, a tie to
    the even tenth. *)
Definition round_half_even (q : Q) : Z :=
  let n := Qnum q in
  let d := Zpos (Qden q) in
  let fl := (n / d)%Z in
  let r := (n mod d)%Z in
  match (2 * r ?= d)%Z with
  | Lt => fl
  | Gt => (fl + 1)%Z
  | Eq => if Z.even fl then fl else (fl + 1)%Z
  end.

Definition round1 (x : pyfloat) : pyfloat :=
  match x with
  | Fin q => Fin (inject_Z (round_half_even (q * 10)) / 10)
  | other => other
  end.

(** ** Strings *)

Local Open Scope string_scope.

Definition code (c : ascii) : N := N_of_ascii c.

(** [str.isspace] on ASCII: tab to carriage return, the four separators
    and the space. *)
Definition is_space (c : ascii) : bool :=
  ((9 <=? code c) && (code c <=? 13) || (28 <=? code c) && (code c <=? 32))%N.

Definition is_digit (c : ascii) : bool :=
  ((48 <=? code c) && (code c <=? 57))%N.

Definition upper_char (c : ascii) : ascii :=
  if ((97 <=? code c) && (code c <=? 122))%N
  then ascii_of_N (code c - 32)
  else c.

(** [s.upper()] *)
Fixpoint upper (s : string) : string :=
  match s with
  | EmptyString => EmptyString
  | String c s' => String (upper_char c) (upper s')
  end.

Fixpoint lstrip (s : string) : string :=
  match s with
  | EmptyString => EmptyString
  | String c s' => if is_space c then lstrip s' else s
  end.

Fixpoint rstrip (s : string) : string :=
  match s with
  | EmptyString => EmptyString
  | String c s' =>
      match rstrip s' with
      | EmptyString => if is_space c then EmptyString else String c EmptyString
      | r => String c r
      end
  end.

(** [s.strip()] *)
Definition strip (s : string) : string := rstrip (lstrip s).

(** [sub in s] *)
Fixpoint contains (sub s : string) : bool :=
  String.prefix sub s
  || match s with
     | EmptyString => false
     | String _ s' => contains sub s'
     end.

(** [s.replace(old, new)] for a non-empty [old]: occurrences are replaced
    from the left and do not overlap; [skip] counts the characters of a
    match still to be dropped. *)
Fixpoint replace_from (old new : string) (skip : nat) (s : string) : string :=
  match s with
  | EmptyString => EmptyString
  | String c s' =>
      match skip with
      | S k => replace_from old new k s'
      | O =>
          if String.prefix old s
          then new +:+ replace_from old new (String.length old - 1) s'
          else String c (replace_from old new 0 s')
      end
  end.

Definition replace (old new s : string) : string := replace_from old new 0 s.

(** [re.sub(r'[^0-9.]', '', s)] *)
Fixpoint keep_digits_and_dots (s : string) : string :=
  match s with
  | EmptyString => EmptyString
  | String c s' =>
      if is_digit c || Ascii.eqb c "."
      then String c (keep_digits_and_dots s')
      else keep_digits_and_dots s'
  end.

(** ** [float(s)] on a string

    The grammar of CPython: surrounding whitespace is dropped; an
    underscore may stand between two digits; then an optional sign and
    either [inf], [infinity], [nan] (in any case) or a decimal number
    [digits], [digits.], [digits.digits] or [.digits] with an optional
    exponent [e], optional sign, digits.  Anything else raises
    ValueError. *)

(** Reads a run of digits: the number read so far, how many digits were
    read, and the rest of the string. *)
Fixpoint take_digits (acc : Z) (n : nat) (s : string) : Z * nat * string :=
  match s with
  | String c s' =>
      if is_digit c
      then take_digits (10 * acc + Z.of_N (code c - 48)) (S n) s'
      else (acc, n, s)
  | EmptyString => (acc, n, s)
  end.

(** Drops the underscores that stand between two digits; [None] when an
    underscore stands anywhere else.  [prev] is the character before. *)
Fixpoint drop_underscores (prev : ascii) (s : string) : option string :=
  match s with
  | EmptyString => if Ascii.eqb prev "_" then None else Some EmptyString
  | String c s' =>
      if Ascii.eqb c "_"
      then if is_digit prev then drop_underscores c s' else None
      else if Ascii.eqb prev "_" && negb (is_digit c) then None
      else String c <$> drop_underscores c s'
  end.

(** An optional sign: [true] for a minus. *)
Definition take_sign (s : string) : bool * string :=
  match s with
  | String "-" s' => (true, s')
  | String "+" s' => (false, s')
  | _ => (false, s)
  end.

(** The exponent part, which must run to the end of the string. *)
Definition parse_exponent (s : string) : option Z :=
  match s with
  | EmptyString => Some 0%Z
  | String c s' =>
      if Ascii.eqb c "e" || Ascii.eqb c "E"
      then
        let '(neg, s1) := take_sign s' in
        match take_digits 0 0 s1 with
        | (_, O, _) => None
        | (e, S _, EmptyString) => Some (if neg then (- e)%Z else e)
        | (_, S _, String _ _) => None
        end
      else None
  end.

(** The unsigned decimal number. *)
Definition parse_decimal (s : string) : option Q :=
  let '(ip, ni, r1) := take_digits 0 0 s in
  let '(m, nf, r2) :=
    match r1 with
    | String "." r => take_digits ip 0 r
    | _ => (ip, O, r1)
    end in
  match (ni + nf)%nat with
  | O => None
  | S _ =>
      e ← parse_exponent r2;
      Some (inject_Z m * Qpower 10 (e - Z.of_nat nf))%Q
  end.

Definition parse_float (s : string) : option pyfloat :=
  let '(neg, r) := take_sign s in
  let u := upper r in
  if String.eqb u "INF" || String.eqb u "INFINITY"
  then Some (if neg then NegInf else PosInf)
  else if String.eqb u "NAN" then Some NaN
  else q ← parse_decimal r; Some (Fin (if neg then - q else q)%Q).

(** [float(s)] *)
Definition float_of_str (s : string) : pyres pyfloat :=
  match drop_underscores zero (strip s) ≫= parse_float with
  | Some x => Ret x
  | None => Raise (ValueError s)
  end.

(** ** scripts/python-calculators/generate-anr6-quotes.py *)

Module GenerateAnr6Quotes.

(** A cell of the "Output KW" column.  [clean_kw_value] looks at its
    argument only through [pd.isna(val)] and [str(val)]: [NA] is a cell
    for which [pd.isna] holds, [Val s] any other cell, with [s] its
    [str()]. *)
Inductive cell : Type :=
| NA
| Val (str : string).

Definition clean_kw_value (val : cell) : pyres pyfloat :=
  match val with
  | NA => Ret (Fin 0)
  | Val s =>
      let val_str := upper (strip s) in
      if contains "HP" val_str then
        hp ← float_of_str (strip (replace "HP" "" val_str));
        Ret (round1 (fmul hp (Fin 0.746)))
      else if contains "MW" val_str then
        mw ← float_of_str (strip (replace "MW" "" val_str));
        Ret (fmul mw (Fin 1000))
      else if contains "KW" val_str || contains "EKW" val_str then
        let kw_str := keep_digits_and_dots val_str in
        if String.eqb kw_str "" then Ret (Fin 0) else float_of_str kw_str
      else
        match float_of_str val_str with
        | Ret x => Ret x
        | Raise _ => Ret (Fin 0)
        end
  end.

Definition get_kw_range (kw : pyfloat) : string :=
  if fle kw (Fin 14) then "2-14"
  else if fle kw (Fin 30) then "15-30"
  else if fle kw (Fin 150) then "35-150"
  else if fle kw (Fin 250) then "151-250"
  else if fle kw (Fin 400) then "251-400"
  else if fle kw (Fin 500) then "401-500"
  else if fle kw (Fin 670) then "501-670"
  else if fle kw (Fin 1050) then "671-1050"
  else if fle kw (Fin 1500) then "1051-1500"
  else "1501+".

(** The first steps of [main]: the column is cleaned cell by cell (an
    exception leaves [main]), the rows with [kW_numeric > 0] are kept,
    and each of those is given its range. *)
Definition billable (kws : list pyfloat) : list pyfloat :=
  List.filter (fun kw => fgt kw (Fin 0)) kws.

Definition kw_ranges (column : list cell) : pyres (list (pyfloat * string)) :=
  kws ← mapM clean_kw_value column;
  Ret (List.map (fun kw => (kw, get_kw_range kw)) (billable kws)).

(** The ranges the labels name: lower bound, upper bound if any. *)
Definition tiers : list (Q * option Q * string) :=
  [ (2, Some 14, "2-14"); (15, Some 30, "15-30"); (35, Some 150, "35-150");
    (151, Some 250, "151-250"); (251, Some 400, "251-400");
    (401, Some 500, "401-500"); (501, Some 670, "501-670");
    (671, Some 1050, "671-1050"); (1051, Some 1500, "1051-1500");
    (1501, None, "1501+") ]%Q.

Definition strictly_inside (v lo : Q) (hi : option Q) : Prop :=
  (lo < v)%Q /\ match hi with Some h => (v < h)%Q | None => True end.

End GenerateAnr6Quotes.

(** ** scripts/python-calculators/create-per-unit-excel.py *)

Module CreatePerUnitExcel.

Definition get_kw_range (kw : pyfloat) : string :=
  if fle kw (Fin 30) then "15-30 kW"
  else if fle kw (Fin 150) then "35-150 kW"
  else if fle kw (Fin 250) then "151-250 kW"
  else if fle kw (Fin 400) then "251-400 kW"
  else if fle kw (Fin 500) then "401-500 kW"
  else if fle kw (Fin 670) then "501-670 kW"
  else if fle kw (Fin 1050) then "671-1050 kW"
  else if fle kw (Fin 1500) then "1051-1500 kW"
  else if fle kw (Fin 2050) then "1501-2050 kW"
  else "2050+ kW".

End CreatePerUnitExcel.

(** The range a table label names, as add-formulas-to-lookup-tables.py
    reads it back from a sheet: [kw_cell.replace(' kW', '').strip()]. *)
Definition label_kw_range (kw_cell : string) : string :=
  strip (replace " kW" "" kw_cell).

(** ** The settings document

    Of default-settings.json and of the answer of /api/settings the
    scripts compute with numbers and look into objects, nothing else. *)

#[warnings="-register-all"]
Inductive setting : Type :=
| Num (q : Q)
| Table (d : gmap string setting).

(** [d[key]] on a dict *)
Definition getitem (d : gmap string setting) (key : string) : pyres setting :=
  match d !! key with
  | Some v => Ret v
  | None => Raise (KeyError key)
  end.

(** [v[key]] on a value: a number cannot be indexed. *)
Definition subscript (v : setting) (key : string) : pyres setting :=
  match v with
  | Table d => getitem d key
  | Num _ => Raise (TypeError "object is not subscriptable")
  end.

(** [d.get(key, default)] on a dict *)
Definition dict_get (d : gmap string setting) (key : string) (dflt : setting) : setting :=
  default dflt (d !! key).

(** [v.get(key, default)] on a value: a number has no [get]. *)
Definition attr_get (v : setting) (key : string) (dflt : setting) : pyres setting :=
  match v with
  | Table d => Ret (dict_get d key dflt)
  | Num _ => Raise (AttributeError "get")
  end.

(** [a + b] and [a * b]: defined on numbers, TypeError on a dict. *)
Definition py_add (a b : setting) : pyres setting :=
  match a, b with
  | Num x, Num y => Ret (Num (x + y))
  | _, _ => Raise (TypeError "unsupported operand type(s) for +")
  end.

Definition py_mul (a b : setting) : pyres setting :=
  match a, b with
  | Num x, Num y => Ret (Num (x * y))
  | _, _ => Raise (TypeError "unsupported operand type(s) for *")
  end.

(** ** scripts/python-calculators/rebuild-lookup-tables-with-settings.py *)

Module RebuildLookupTables.

(** The pricing values the script extracts at its start. *)
Record pricing : Type := {
  LABOR_RATE : setting;
  MOBILIZATION_RATE : setting;
  OIL_BASE : setting;
  OIL_MARKUP : setting;
  OIL_PRICE : setting;
  COOLANT_BASE : setting;
  COOLANT_MARKUP : setting;
  COOLANT_PRICE : setting;
  PARTS_MARKUP : setting
}.

Definition extract_pricing (settings : gmap string setting) : pyres pricing :=
  labor_rate ← getitem settings "laborRate";
  mobilization_rate ← getitem settings "mobilizationRate";
  oil_base ← getitem settings "oilPrice";
  oil_markup ← getitem settings "oilMarkup";
  oil_price ← py_mul oil_base oil_markup;
  coolant_base ← getitem settings "coolantPrice";
  coolant_markup ← getitem settings "coolantMarkup";
  coolant_price ← py_mul coolant_base coolant_markup;
  parts_markup ← getitem settings "partsMarkup";
  Ret {| LABOR_RATE := labor_rate; MOBILIZATION_RATE := mobilization_rate;
         OIL_BASE := oil_base; OIL_MARKUP := oil_markup; OIL_PRICE := oil_price;
         COOLANT_BASE := coolant_base; COOLANT_MARKUP := coolant_markup;
         COOLANT_PRICE := coolant_price; PARTS_MARKUP := parts_markup |}.

(** The fields [extract_pricing] reads, in the order it reads them. *)
Definition required_fields : list string :=
  ["laborRate"; "mobilizationRate"; "oilPrice"; "oilMarkup";
   "coolantPrice"; "coolantMarkup"; "partsMarkup"].

(** [(values['labor'] + values['mobilization']) * LABOR_RATE], the term
    every per-visit total starts with. *)
Definition labor_cost (values : setting) (p : pricing) : pyres setting :=
  labor ← subscript values "labor";
  mobilization ← subscript values "mobilization";
  hours ← py_add labor mobilization;
  py_mul hours (LABOR_RATE p).

(** Service A, the total of one data row. *)
Definition service_a_total (values : setting) (p : pricing) : pyres setting :=
  cost ← labor_cost values p;
  parts ← subscript values "parts";
  py_add cost parts.

(** Service B *)
Definition service_b_total (values : setting) (p : pricing) : pyres setting :=
  cost ← labor_cost values p;
  filter_cost ← subscript values "filterCost";
  with_filter ← py_add cost filter_cost;
  oil_gallons ← subscript values "oilGallons";
  oil_cost ← py_mul oil_gallons (OIL_PRICE p);
  py_add with_filter oil_cost.

(** Service C *)
Definition service_c_total (values : setting) (p : pricing) : pyres setting :=
  cost ← labor_cost values p;
  coolant_gallons ← subscript values "coolantGallons";
  coolant_cost ← py_mul coolant_gallons (COOLANT_PRICE p);
  with_coolant ← py_add cost coolant_cost;
  hose_belt ← subscript values "hoseBeltCost";
  py_add with_coolant hose_belt.

(** Service E *)
Definition service_e_total (values : setting) (p : pricing) : pyres setting :=
  cost ← labor_cost values p;
  load_bank ← subscript values "loadBankRental";
  with_load_bank ← py_add cost load_bank;
  transformer ← subscript values "transformerRental";
  with_transformer ← py_add with_load_bank transformer;
  delivery ← subscript values "deliveryCost";
  py_add with_transformer delivery.

(** Service D: the three laboratory fees the table shows. *)
Definition service_d_fees (settings : gmap string setting)
  : pyres (setting * setting * setting) :=
  service_d ← getitem settings "serviceD";
  oil ← subscript service_d "oilAnalysisCost";
  coolant ← subscript service_d "coolantAnalysisCost";
  fuel ← subscript service_d "fuelAnalysisCost";
  Ret (oil, coolant, fuel).

(** The first field of [required_fields] the settings lack, if any. *)
Definition first_missing (settings : gmap string setting) : option string :=
  List.find (fun key => match settings !! key with None => true | Some _ => false end)
    required_fields.

End RebuildLookupTables.

(** ** test-helpers/fetch_calculator_settings.py *)

Module FetchCalculatorSettings.

Definition get_service_d_prices (settings : gmap string setting)
  : pyres (gmap string setting) :=
  let service_d := dict_get settings "serviceD" (Table ∅) in
  oil ← attr_get service_d "oilAnalysisCost" (Num 16.55);
  coolant ← attr_get service_d "coolantAnalysisCost" (Num 16.55);
  fuel ← attr_get service_d "fuelAnalysisCost" (Num 60.00);
  Ret (<["oil" := oil]> (<["coolant" := coolant]> (<["fuel" := fuel]> ∅))).

Definition get_oil_pricing (settings : gmap string setting) : gmap string setting :=
  <["price" := dict_get settings "oilPrice" (Num 16.00)]>
    (<["markup" := dict_get settings "oilMarkup" (Num 1.5)]> ∅).

Definition get_coolant_pricing (settings : gmap string setting) : gmap string setting :=
  <["price" := dict_get settings "coolantPrice" (Num 16.00)]>
    (<["markup" := dict_get settings "coolantMarkup" (Num 1.5)]> ∅).

Definition get_labor_rates (settings : gmap string setting) : gmap string setting :=
  <["labor" := dict_get settings "laborRate" (Num 180.00)]>
    (<["mobilization" := dict_get settings "mobilizationRate" (Num 180.00)]>
       (<["mileage" := dict_get settings "mileageRate" (Num 0.67)]> ∅)).

Definition get_markup_rates (settings : gmap string setting) : gmap string setting :=
  <["parts" := dict_get settings "partsMarkup" (Num 1.25)]>
    (<["freight" := dict_get settings "freightMarkup" (Num 1.05)]> ∅).

End FetchCalculatorSettings.

(** ** The answers of the calculator API *)

(** A JSON value as [response.json()] returns it. *)
#[warnings="-register-all"]
Inductive json : Type :=
| JNull
| JBool (b : bool)
| JNum (q : Q)
| JStr (s : string)
| JArr (l : list json)
| JObj (d : gmap string json).

(** [v[key]] with a string key *)
Definition json_subscript (v : json) (key : string) : pyres json :=
  match v with
  | JObj d =>
      match d !! key with
      | Some x => Ret x
      | None => Raise (KeyError key)
      end
  | JArr _ => Raise (TypeError "list indices must be integers or slices, not str")
  | JStr _ => Raise (TypeError "string indices must be integers")
  | JNull | JBool _ | JNum _ => Raise (TypeError "object is not subscriptable")
  end.

(** [v.get(key, default)] *)
Definition json_get (v : json) (key : string) (dflt : json) : pyres json :=
  match v with
  | JObj d => Ret (default dflt (d !! key))
  | _ => Raise (AttributeError "get")
  end.

(** [float(v)] *)
Definition float_of_json (v : json) : pyres pyfloat :=
  match v with
  | JNum q => Ret (Fin q)
  | JBool b => Ret (Fin (if b then 1 else 0))
  | JStr s => float_of_str s
  | JNull =>
      Raise (TypeError "float() argument must be a string or a real number, not 'NoneType'")
  | JArr _ =>
      Raise (TypeError "float() argument must be a string or a real number, not 'list'")
  | JObj _ =>
      Raise (TypeError "float() argument must be a string or a real number, not 'dict'")
  end.

(** What one [requests.post] does: it raises, or it returns a response
    with a status code and a body, [None] when the body is not JSON. *)
Inductive post_result : Type :=
| PostRaises (msg : string)
| Response (status_code : Z) (body : option json).

(** [response.json()] *)
Definition response_json (body : option json) : pyres json :=
  match body with
  | Some v => Ret v
  | None => Raise JSONDecodeError
  end.

(** [str(e)]; the texts of JSONDecodeError and of the TypeError and
    AttributeError of a subscript or a [get] are abridged. *)
Definition exn_str (e : exn) : string :=
  match e with
  | KeyError key => "'" +:+ key +:+ "'"
  | ValueError arg => "could not convert string to float: '" +:+ arg +:+ "'"
  | TypeError what => what
  | AttributeError name => "object has no attribute '" +:+ name +:+ "'"
  | JSONDecodeError => "Expecting value"
  | RequestException msg => msg
  end.

(** The server is not part of the scripts: a batch pairs every generator
    with what the server does at the successive attempts for it. *)
Definition server : Type := nat -> post_result.

(** ** scripts/python-calculators/phase4-calculate-pricing.py *)

Module Phase4CalculatePricing.

(** A generator of lbnl-generators.json.  It has the keys ["unitNumber"]
    and ["kwRating"], which the loop reads outside its [try];
    ["manufacturer"] may be absent. *)
Record generator : Type := {
  unitNumber : string;
  kwRating : Q;
  manufacturer : option string
}.

Definition max_retries : nat := 3.

(** The retry loop: [attempt] counts from 0, [retries_left] is
    [max_retries - 1 - attempt]; on status 429 the loop goes on while a
    retry is left, otherwise it breaks with the response it has.  The
    sleeps are not modelled. *)
Fixpoint post_with_retries (srv : server) (attempt retries_left : nat) : post_result :=
  match srv attempt with
  | PostRaises msg => PostRaises msg
  | Response status_code body =>
      match retries_left with
      | S r =>
          if (status_code =? 429)%Z
          then post_with_retries srv (S attempt) r
          else Response status_code body
      | O => Response status_code body
      end
  end.

Record breakdown : Type := {
  labor : pyfloat;
  parts : pyfloat;
  mobilization : pyfloat;
  tax : pyfloat
}.

(** An entry of [results]. *)
Inductive result : Type :=
| Success (unit : string) (kw : Q) (maker : string) (annualPrice : pyfloat)
          (parts : breakdown) (calculation : json)
| Failure (unit : string) (kw : Q) (error : string).

Record state : Type := {
  results : list result;
  success_count : nat;
  total_value : pyfloat
}.

Definition initial : state :=
  {| results := []; success_count := 0; total_value := Fin 0 |}.

(** The [except] branch and the [else] branch: a failure entry. *)
Definition record_failure (st : state) (gen : generator) (error : string) : state :=
  {| results := results st ++ [Failure (unitNumber gen) (kwRating gen) error];
     success_count := success_count st;
     total_value := total_value st |}.

(** The statements of the success branch up to [annual_total]. *)
Definition read_total (body : option json) : pyres (json * pyfloat) :=
  result ← response_json body;
  calc ← json_subscript result "calculation";
  total ← json_subscript calc "total";
  annual_total ← float_of_json total;
  Ret (calc, annual_total).

(** The ["breakdown"] of the success entry. *)
Definition read_breakdown (calc : json) : pyres breakdown :=
  labor_total ← json_get calc "laborTotal" (JNum 0) ≫= float_of_json;
  parts_total ← json_get calc "partsTotal" (JNum 0) ≫= float_of_json;
  mobilization_total ← json_get calc "mobilizationTotal" (JNum 0) ≫= float_of_json;
  tax_total ← json_get calc "tax" (JNum 0) ≫= float_of_json;
  Ret {| labor := labor_total; parts := parts_total;
         mobilization := mobilization_total; tax := tax_total |}.

(** The body of the loop over the generators.  [total_value] is
    increased before the success entry is built, so an exception raised
    while the entry is built leaves the increase in place. *)
Definition process (st : state) (item : generator * server) : state :=
  let '(gen, srv) := item in
  match post_with_retries srv 0 (max_retries - 1) with
  | PostRaises msg => record_failure st gen msg
  | Response status_code body =>
      if (status_code =? 200)%Z then
        match read_total body with
        | Raise e => record_failure st gen (exn_str e)
        | Ret (calc, annual_total) =>
            let st1 := {| results := results st;
                          success_count := success_count st;
                          total_value := fadd (total_value st) annual_total |} in
            match read_breakdown calc with
            | Raise e => record_failure st1 gen (exn_str e)
            | Ret b =>
                {| results := results st1 ++
                     [Success (unitNumber gen) (kwRating gen)
                        (default "Unknown" (manufacturer gen)) annual_total b calc];
                   success_count := S (success_count st1);
                   total_value := total_value st1 |}
            end
        end
      else record_failure st gen ("HTTP " +:+ pretty status_code)
  end.

Definition run (batch : list (generator * server)) : state :=
  fold_left process batch initial.

(** Option years. *)
Section Escalation.
Variable escalation_rate : Q.

Definition year3_total (total_value : Q) : Q := total_value * (1 + escalation_rate).
Definition year4_total (total_value : Q) : Q := total_value * (1 + escalation_rate * 2).
Definition year5_total (total_value : Q) : Q := total_value * (1 + escalation_rate * 3).

Definition five_year_total (total_value : Q) : Q :=
  (total_value * 2) + year3_total total_value + year4_total total_value
  + year5_total total_value.

(** The ["yearlyTotals"] of the output, by year number. *)
Definition yearly_total (total_value : Q) (n : nat) : option Q :=
  match n with
  | 1 | 2 => Some total_value
  | 3 => Some (year3_total total_value)
  | 4 => Some (year4_total total_value)
  | 5 => Some (year5_total total_value)
  | _ => None
  end.

End Escalation.

(** [escalation_rate = 0.03] *)
Definition escalation_rate : Q := 0.03.

End Phase4CalculatePricing.

(** ** scripts/python-calculators/lnbl-per-unit-calculation.py *)

Module LnblPerUnitCalculation.

(** An element of [generators_data]; the kW ratings are integers. *)
Record generator : Type := {
  assetId : string;
  manufacturer : string;
  kwRating : Z
}.

(** An entry of [results]. *)
Record entry : Type := {
  entry_assetId : string;
  entry_manufacturer : string;
  entry_kwRating : Z;
  serviceA : json;
  serviceB : json;
  serviceD : json;
  serviceE : json;
  totalAnnual : pyfloat
}.

Record state : Type := {
  results : list entry;
  total_cost : pyfloat
}.

Definition initial : state := {| results := []; total_cost := Fin 0 |}.

(** [services.get(name, {}).get('totalCost', 0)] *)
Definition service_cost (services : json) (name : string) : pyres json :=
  service ← json_get services name (JObj ∅);
  json_get service "totalCost" (JNum 0).

(** The body of the loop.  Nothing is caught: an exception ends the
    script, and a status other than 200 is printed and passed over. *)
Definition process (st : state) (item : generator * server) : pyres state :=
  let '(gen, srv) := item in
  match srv 0%nat with
  | PostRaises msg => Raise (RequestException msg)
  | Response status_code body =>
      if (status_code =? 200)%Z then
        result ← response_json body;
        calc ← json_subscript result "calculation";
        unit_total ← json_subscript calc "subtotal" ≫= float_of_json;
        services ← json_get calc "serviceBreakdown" (JObj ∅);
        service_a ← service_cost services "A - Comprehensive Inspection";
        service_b ← service_cost services "B - Oil & Filter Service";
        service_d ← service_cost services "D - Oil & Fuel Analysis";
        service_e ← service_cost services "E - Load Bank Testing";
        Ret {| results := results st ++
                 [{| entry_assetId := assetId gen;
                     entry_manufacturer := manufacturer gen;
                     entry_kwRating := kwRating gen;
                     serviceA := service_a; serviceB := service_b;
                     serviceD := service_d; serviceE := service_e;
                     totalAnnual := unit_total |}];
               total_cost := fadd (total_cost st) unit_total |}
      else Ret st
  end.

Fixpoint run_from (st : state) (batch : list (generator * server)) : pyres state :=
  match batch with
  | [] => Ret st
  | item :: rest => st' ← process st item; run_from st' rest
  end.

Definition run (batch : list (generator * server)) : pyres state :=
  run_from initial batch.

End LnblPerUnitCalculation.

(** * Notions the statements use *)

Section LookupTablesNotions.
Import RebuildLookupTables.

(** The settings and the tiers of the two scenarios of the specification;
    default-settings.json itself is not among the sources. *)
Definition scenario_settings : gmap string setting :=
  list_to_map
    [("laborRate", Num 180); ("mobilizationRate", Num 180);
     ("oilPrice", Num 16); ("oilMarkup", Num 1.5);
     ("coolantPrice", Num 16); ("coolantMarkup", Num 1.5);
     ("partsMarkup", Num 1.25)].

Definition scenario_tier_251_400 : gmap string setting :=
  list_to_map [("labor", Num 8); ("mobilization", Num 2); ("parts", Num 150)].

Definition scenario_tier_15_30 : gmap string setting :=
  list_to_map
    [("labor", Num 3); ("mobilization", Num 1); ("filterCost", Num 40);
     ("oilGallons", Num 1.5)].

End LookupTablesNotions.

Section OptionYearsNotions.

(** The compound law of the specification: year n costs the year-1 total
    times (1 + r)^(n-1). *)
Definition compound_total (r total_value : Q) (n : nat) : Q :=
  total_value * (1 + r) ^ (Z.of_nat n - 1).

End OptionYearsNotions.

(** Settles the comparisons [Qle_bool] of a goal by cases. *)
Ltac split_fle :=
  repeat match goal with
    | |- context [Qle_bool ?a ?b] =>
        let H := fresh "Hle" in
        destruct (Qle_bool a b) eqn:H;
        [apply Qle_bool_iff in H
        |apply not_true_iff_false in H; rewrite Qle_bool_iff in H]
    end.

(** The running sum [total += x] over a list, from a start value. *)
Definition running_sum (start : pyfloat) (xs : list pyfloat) : pyfloat :=
  fold_left fadd xs start.

Section MissingFieldNotions.
Import RebuildLookupTables FetchCalculatorSettings.

(** Every required field that is present holds a number. *)
Definition numeric_rates (settings : gmap string setting) : Prop :=
  forall key v, In key required_fields -> settings !! key = Some v -> exists q, v = Num q.

(** Settings that hold nothing but the oil price. *)
Definition only_oil_price : gmap string setting := {["oilPrice" := Num 17]}.

End MissingFieldNotions.

Section AggregatorNotions.
Import Phase4CalculatePricing.

(** What the loop body adds to [total_value] for an item: the annual
    total of a response with status 200 from which [read_total] returns. *)
Definition added (item : generator * server) : option pyfloat :=
  match post_with_retries (snd item) 0 (max_retries - 1) with
  | PostRaises _ => None
  | Response status_code body =>
      if (status_code =? 200)%Z then
        match read_total body with
        | Ret (_, annual_total) => Some annual_total
        | Raise _ => None
        end
      else None
  end.

(** The entry the loop body appends for an item. *)
Definition entry (item : generator * server) : result :=
  let failure := Failure (unitNumber (fst item)) (kwRating (fst item)) in
  match post_with_retries (snd item) 0 (max_retries - 1) with
  | PostRaises msg => failure msg
  | Response status_code body =>
      if (status_code =? 200)%Z then
        match read_total body with
        | Raise e => failure (exn_str e)
        | Ret (calc, annual_total) =>
            match read_breakdown calc with
            | Raise e => failure (exn_str e)
            | Ret b =>
                Success (unitNumber (fst item)) (kwRating (fst item))
                  (default "Unknown" (manufacturer (fst item))) annual_total b calc
            end
        end
      else failure ("HTTP " +:+ pretty status_code)
  end.

Definition is_success (r : result) : bool :=
  match r with
  | Success _ _ _ _ _ _ => true
  | Failure _ _ _ => false
  end.

Definition result_unit (r : result) : string :=
  match r with
  | Success unit _ _ _ _ _ => unit
  | Failure unit _ _ => unit
  end.

(** ["annualPrice"] of a success entry. *)
Definition price_of (r : result) : option pyfloat :=
  match r with
  | Success _ _ _ annualPrice _ _ => Some annualPrice
  | Failure _ _ _ => None
  end.

Definition successful_prices (rs : list result) : list pyfloat := omap price_of rs.

Definition add_to (total : pyfloat) (x : option pyfloat) : pyfloat :=
  match x with
  | Some a => fadd total a
  | None => total
  end.


(** The response has status 200 and a usable total, and a field of the
    breakdown that [float()] refuses. *)
Definition counted_but_failed (srv : server) : bool :=
  match post_with_retries srv 0 (max_retries - 1) with
  | PostRaises _ => false
  | Response status_code body =>
      (status_code =? 200)%Z
      && match read_total body with
         | Raise _ => false
         | Ret (calc, _) =>
             match read_breakdown calc with
             | Raise _ => true
             | Ret _ => false
             end
         end
  end.

(** A batch of three: a unit whose call succeeds at once, a unit whose kW
    the server refuses with status 400, and a unit that is answered after
    one rate-limit response. *)
Definition answer (total : json) : post_result :=
  Response 200 (Some (JObj {["calculation" :=
    JObj (<["total" := total]> {["laborTotal" := JNum 1800]})]})).

Definition sample_batch : list (generator * server) :=
  [ ({| unitNumber := "G-01"; kwRating := 300; manufacturer := Some "Cummins" |},
     fun _ => answer (JNum 1950));
    ({| unitNumber := "G-02"; kwRating := -5; manufacturer := None |},
     fun _ => Response 400 None);
    ({| unitNumber := "G-03"; kwRating := 20; manufacturer := None |},
     fun attempt => match attempt with
                    | O => Response 429 None
                    | S _ => answer (JStr "796.00")
                    end) ].

(** A response that is counted and then refused: status 200, a usable
    total, and a laborTotal that is null.  The total is added before the
    entry is built, [float(None)] raises while it is built, and the unit
    gets a failure entry though its total stays in [total_value]. *)
Definition null_labor_batch : list (generator * server) :=
  [ ({| unitNumber := "G-09"; kwRating := 300; manufacturer := None |},
     fun _ => Response 200 (Some (JObj {["calculation" :=
       JObj (<["total" := JNum 100]> {["laborTotal" := JNull]})]}))) ].

End AggregatorNotions.

Section PerUnitTotalNotions.
Import LnblPerUnitCalculation.

(** What the loop body does with an item, apart from the state: it
    raises, passes over a status other than 200, or has an entry. *)
Definition visit (item : generator * server) : pyres (option entry) :=
  let '(gen, srv) := item in
  match srv 0%nat with
  | PostRaises msg => Raise (RequestException msg)
  | Response status_code body =>
      if (status_code =? 200)%Z then
        result ← response_json body;
        calc ← json_subscript result "calculation";
        unit_total ← json_subscript calc "subtotal" ≫= float_of_json;
        services ← json_get calc "serviceBreakdown" (JObj ∅);
        service_a ← service_cost services "A - Comprehensive Inspection";
        service_b ← service_cost services "B - Oil & Filter Service";
        service_d ← service_cost services "D - Oil & Fuel Analysis";
        service_e ← service_cost services "E - Load Bank Testing";
        Ret (Some {| entry_assetId := assetId gen;
                     entry_manufacturer := manufacturer gen;
                     entry_kwRating := kwRating gen;
                     serviceA := service_a; serviceB := service_b;
                     serviceD := service_d; serviceE := service_e;
                     totalAnnual := unit_total |})
      else Ret None
  end.

Definition record (st : state) (o : option entry) : state :=
  match o with
  | Some e => {| results := results st ++ [e];
                 total_cost := fadd (total_cost st) (totalAnnual e) |}
  | None => st
  end.


End PerUnitTotalNotions.

(** * More of the scripts *)

(** ** phase4-calculate-pricing.py: the summary of the output *)

Section Phase4Summary.
Import Phase4CalculatePricing.

(** ["failedCalculations": len(generators) - success_count] *)
Definition failed_calculations (batch : list (generator * server)) : Z :=
  Z.of_nat (length batch) - Z.of_nat (success_count (run batch)).

(** ["allCalculationsSuccess": success_count == len(generators)] *)
Definition all_calculations_success (batch : list (generator * server)) : bool :=
  (success_count (run batch) =? length batch)%nat.

(** A response with status 429. *)
Definition is_429 (r : post_result) : Prop :=
  exists body, r = Response 429 body.

End Phase4Summary.

Section LookupTablesMoreNotions.
Import RebuildLookupTables.

(** The pricing with another labor rate. *)
Definition with_labor_rate (p : pricing) (rate : Q) : pricing :=
  {| LABOR_RATE := Num rate; MOBILIZATION_RATE := MOBILIZATION_RATE p;
     OIL_BASE := OIL_BASE p; OIL_MARKUP := OIL_MARKUP p; OIL_PRICE := OIL_PRICE p;
     COOLANT_BASE := COOLANT_BASE p; COOLANT_MARKUP := COOLANT_MARKUP p;
     COOLANT_PRICE := COOLANT_PRICE p; PARTS_MARKUP := PARTS_MARKUP p |}.

End LookupTablesMoreNotions.

(** ** lnbl-per-unit-calculation.py: which generators get an entry *)

Section PerUnitMoreNotions.
Import LnblPerUnitCalculation.

(** The only request for the generator was answered with status 200. *)
Definition answered_200 (item : generator * server) : bool :=
  match snd item 0%nat with
  | PostRaises _ => false
  | Response status_code _ => (status_code =? 200)%Z
  end.

(** A batch of two: one generator answered, one turned away with status
    429 (the script does not retry). *)
Definition per_unit_sample : list (generator * server) :=
  [ ({| assetId := "02 EG 068"; manufacturer := "Cummins"; kwRating := 300 |},
     fun _ => Response 200 (Some (JObj {["calculation" :=
                JObj {["subtotal" := JNum 12418.82]}]})));
    ({| assetId := "30 EG 114"; manufacturer := "Kohler"; kwRating := 350 |},
     fun _ => Response 429 None) ].

End PerUnitMoreNotions.

(** ** Strings all of whose characters have a property *)

Fixpoint string_forall (P : ascii -> bool) (s : string) : bool :=
  match s with
  | EmptyString => true
  | String c s' => P c && string_forall P s'
  end.




(** ** The labels of the lookup tables *)

(** The first cell of a data row, as rebuild-lookup-tables-with-settings.py
    writes it: [f"{kw_range} kW"]. *)
Definition table_label (kw_range : string) : string := kw_range +:+ " kW".



(** ** scripts/python-calculators/phase4-complete-remaining.py *)

Module Phase4CompleteRemaining.
Import Phase4CalculatePricing.

(** What the script reads of rfp-pricing-results.json: the entries and
    two fields of the summary. *)
Record existing_results : Type := {
  generators : list result;
  annualTotal : pyfloat;
  successfulCalculations : Z
}.

(** [result.get('success', False)] *)
Definition success (r : result) : bool :=
  match r with
  | Success _ _ _ _ _ _ => true
  | Failure _ _ _ => false
  end.

(** The generators to calculate again: for every entry without success,
    in order, [all_generators[i]] at the index [i] of the entry.  [None]
    stands for the IndexError of an index beyond [all_generators]. *)
Fixpoint failed_generators_from (all_generators : list (generator * server))
    (i : nat) (entries : list result) : option (list (generator * server)) :=
  match entries with
  | [] => Some []
  | r :: rest =>
      if success r then failed_generators_from all_generators (S i) rest
      else
        gen ← all_generators !! i;
        rest' ← failed_generators_from all_generators (S i) rest;
        Some (gen :: rest')
  end.

Definition failed_generators (existing : existing_results)
    (all_generators : list (generator * server)) : option (list (generator * server)) :=
  failed_generators_from all_generators 0 (generators existing).

Definition max_retries : nat := 5.

(** The body of the loop, as in phase4-calculate-pricing.py but for the
    number of attempts. *)
Definition process (st : state) (item : generator * server) : state :=
  let '(gen, srv) := item in
  match post_with_retries srv 0 (max_retries - 1) with
  | PostRaises msg => record_failure st gen msg
  | Response status_code body =>
      if (status_code =? 200)%Z then
        match read_total body with
        | Raise e => record_failure st gen (exn_str e)
        | Ret (calc, annual_total) =>
            let st1 := {| results := results st;
                          success_count := success_count st;
                          total_value := fadd (total_value st) annual_total |} in
            match read_breakdown calc with
            | Raise e => record_failure st1 gen (exn_str e)
            | Ret b =>
                {| results := results st1 ++
                     [Success (unitNumber gen) (kwRating gen)
                        (default "Unknown" (manufacturer gen)) annual_total b calc];
                   success_count := S (success_count st1);
                   total_value := total_value st1 |}
            end
        end
      else record_failure st gen ("HTTP " +:+ pretty status_code)
  end.

Definition run (failed : list (generator * server)) : state :=
  fold_left process failed initial.

(** The merge: an entry with success is kept, an entry without is
    replaced by [new_results[new_results_index]], and the index moves on.
    [None] stands for the IndexError of an index beyond [new_results]. *)
Fixpoint merge_from (new_results : list result) (new_results_index : nat)
    (entries : list result) : option (list result) :=
  match entries with
  | [] => Some []
  | existing_result :: rest =>
      if success existing_result then
        merged ← merge_from new_results new_results_index rest;
        Some (existing_result :: merged)
      else
        new_result ← new_results !! new_results_index;
        merged ← merge_from new_results (S new_results_index) rest;
        Some (new_result :: merged)
  end.

Record final : Type := {
  merged_generators : list result;
  final_total : pyfloat;
  final_success_count : Z;
  final_failed_count : Z
}.

Definition complete (existing : existing_results)
    (all_generators : list (generator * server)) : option final :=
  failed ← failed_generators existing all_generators;
  let st := run failed in
  merged ← merge_from (results st) 0 (generators existing);
  let count := (successfulCalculations existing + Z.of_nat (success_count st))%Z in
  Some {| merged_generators := merged;
          final_total := fadd (annualTotal existing) (total_value st);
          final_success_count := count;
          final_failed_count := (Z.of_nat (length all_generators) - count)%Z |}.

(** The server as the loop of this script sees it: the answer the five
    attempts end with. *)
Definition settled (item : generator * server) : generator * server :=
  (fst item, fun _ => post_with_retries (snd item) 0 (max_retries - 1)).

(** The entry position [i] has after the second run: the old one where
    it had success, otherwise the entry of the new calculation of
    [all_generators[i]]. *)
Definition merged_entry (all_generators : list (generator * server))
    (i : nat) (r : result) : option result :=
  if success r then Some r
  else (fun item => entry (settled item)) <$> all_generators !! i.

End Phase4CompleteRemaining.

Section CompleteRemainingNotions.
Import Phase4CalculatePricing Phase4CompleteRemaining.

(** The results of a first run in which the second unit failed, and the
    generators with a server that now answers for it. *)
Definition first_run : existing_results :=
  {| generators := results (Phase4CalculatePricing.run sample_batch);
     annualTotal := total_value (Phase4CalculatePricing.run sample_batch);
     successfulCalculations := 2 |}.

Definition second_try : list (generator * server) :=
  [ ({| unitNumber := "G-01"; kwRating := 300; manufacturer := Some "Cummins" |},
     fun _ => Response 500 None);
    ({| unitNumber := "G-02"; kwRating := -5; manufacturer := None |},
     fun attempt => match attempt with
                    | 4%nat => answer (JNum 1200)
                    | _ => Response 429 None
                    end);
    ({| unitNumber := "G-03"; kwRating := 20; manufacturer := None |},
     fun _ => Response 500 None) ].

(** Results with nothing left to calculate. *)
Definition all_done : existing_results :=
  {| generators :=
       [Success "G-01" 300 "Cummins" (Fin 1950)
          {| labor := Fin 1800; parts := Fin 150; mobilization := Fin 0; tax := Fin 0 |}
          JNull];
     annualTotal := Fin 1950;
     successfulCalculations := 1 |}.

End CompleteRemainingNotions.

(** ** phase4-finalize.py *)

Module Phase4Finalize.
Import Phase4CalculatePricing.

(** The entry written for the 8 kW generator.  The entries of
    rfp-pricing-results.json are those of phase4-calculate-pricing.py;
    the ["note"] of this one, which no script reads, is left out. *)
Definition eight_kw_result : result :=
  Success "76 CM 186" 8 "Unknown" (Fin 11581.60)
    {| labor := Fin 2610.00; parts := Fin 4872.20;
       mobilization := Fin 3600.00; tax := Fin 499.40 |}
    (JObj (list_to_map
       [("laborTotal", JStr "2610.00"); ("partsTotal", JStr "4872.20");
        ("mobilizationTotal", JStr "3600.00"); ("tax", JStr "499.40");
        ("total", JStr "11581.60"); ("taxRate", JStr "10.25%")])).

(** The loop with [break]: the first entry whose ["unitNumber"] is
    '76 CM 186' is replaced. *)
Fixpoint replace_failed (generators : list result) : list result :=
  match generators with
  | [] => []
  | gen :: rest =>
      if String.eqb (result_unit gen) "76 CM 186"
      then eight_kw_result :: rest
      else gen :: replace_failed rest
  end.

(** [sum(1 for g in generators if g.get('success', False))] *)
Definition successful (generators : list result) : nat :=
  length (List.filter is_success generators).

(** [sum(g.get('annualPrice', 0) for g in generators if g.get('success', False))] *)
Definition annual_total (generators : list result) : pyfloat :=
  running_sum (Fin 0) (successful_prices generators).

Record summary : Type := {
  totalGenerators : nat;
  successfulCalculations : nat;
  failedCalculations : Z;
  annualTotal : pyfloat;
  allCalculationsSuccess : bool
}.

(** The entries and the summary the script writes back. *)
Definition finalize (generators : list result) : list result * summary :=
  let generators := replace_failed generators in
  let total_generators := length generators in
  (generators,
   {| totalGenerators := total_generators;
      successfulCalculations := successful generators;
      failedCalculations := Z.of_nat total_generators - Z.of_nat (successful generators);
      annualTotal := annual_total generators;
      allCalculationsSuccess := (successful generators =? total_generators)%nat |}).

(** The entry the loop finds, if any. *)
Definition first_of_unit (generators : list result) : option result :=
  List.find (fun gen => String.eqb (result_unit gen) "76 CM 186") generators.

End Phase4Finalize.

Section FinalizeNotions.
Import Phase4CalculatePricing Phase4Finalize.

Definition no_breakdown : breakdown :=
  {| labor := Fin 0; parts := Fin 0; mobilization := Fin 0; tax := Fin 0 |}.

(** Results in which the unit occurs twice, both times as a failure. *)
Definition results_before : list result :=
  [ Success "02 EG 068" 300 "Cummins" (Fin 14250) no_breakdown JNull;
    Failure "76 CM 186" 8 "HTTP 400" ].

Definition results_after : list result :=
  [ Failure "76 CM 186" 8 "HTTP 400";
    Success "30 EG 114" 350 "Kohler" (Fin 15100) no_breakdown JNull ].

End FinalizeNotions.

(** ** generate-anr6-quotes.py: the files of the payloads *)

(** [f"{n:02d}"] for a number that is not negative. *)
Definition format_02d (n : N) : string :=
  if (n <? 10)%N then "0" +:+ pretty n else pretty n.

(** [f"ANR-6-2025-Unit-{unit_number:02d}"] *)
Definition quote_number (unit_number : N) : string :=
  "ANR-6-2025-Unit-" +:+ format_02d unit_number.

(** [f"quote-unit-{idx:02d}.json"] *)
Definition quote_file (idx : N) : string :=
  "quote-unit-" +:+ format_02d idx +:+ ".json".

(** The names of the files [main] writes for [n] billable generators:
    [enumerate(quote_payloads, start=1)]. *)
Definition saved_files (n : nat) : list string :=
  List.map (fun idx => quote_file (N.of_nat idx)) (List.seq 1 n).

(** * Properties *)

Import GenerateAnr6Quotes.

(** ** [float()] and [clean_kw_value] on sample inputs *)

Example float_of_str_plain : float_of_str "150" = Ret (Fin 150).
Proof. reflexivity. Qed.

Example float_of_str_frac : exists q, float_of_str " 12.5 " = Ret (Fin q) /\ (q == 12.5)%Q.
Proof. eexists; split; [vm_compute; reflexivity | reflexivity]. Qed.

Example float_of_str_exp : exists q, float_of_str "-1_0.5e-1" = Ret (Fin q) /\ (q == -1.05)%Q.
Proof. eexists; split; [vm_compute; reflexivity | reflexivity]. Qed.

Example float_of_str_leading_dot : exists q, float_of_str ".5" = Ret (Fin q) /\ (q == 1 # 2)%Q.
Proof. eexists; split; [vm_compute; reflexivity | reflexivity]. Qed.

Example float_of_str_inf : float_of_str "-Infinity" = Ret NegInf.
Proof. reflexivity. Qed.

Example float_of_str_nan : float_of_str "NAN" = Ret NaN.
Proof. reflexivity. Qed.

Example float_of_str_empty : float_of_str "" = Raise (ValueError "").
Proof. reflexivity. Qed.

Example float_of_str_dot : float_of_str "." = Raise (ValueError ".").
Proof. reflexivity. Qed.

Example float_of_str_two_dots : float_of_str "1.2.3" = Raise (ValueError "1.2.3").
Proof. reflexivity. Qed.

Example float_of_str_bare_exp : float_of_str "1e" = Raise (ValueError "1e").
Proof. reflexivity. Qed.

Example float_of_str_word : float_of_str "N/A" = Raise (ValueError "N/A").
Proof. reflexivity. Qed.

Example float_of_str_underscore : float_of_str "1__0" = Raise (ValueError "1__0").
Proof. reflexivity. Qed.

Example clean_na : clean_kw_value NA = Ret (Fin 0).
Proof. reflexivity. Qed.

Example clean_number : clean_kw_value (Val "300") = Ret (Fin 300).
Proof. reflexivity. Qed.

Example clean_hp :
  exists q, clean_kw_value (Val "100 hp") = Ret (Fin q) /\ (q == 74.6)%Q.
Proof. eexists; split; [vm_compute; reflexivity | reflexivity]. Qed.

Example clean_hp_rounds :
  exists q, clean_kw_value (Val "7HP") = Ret (Fin q) /\ (q == 5.2)%Q.
Proof. eexists; split; [vm_compute; reflexivity | reflexivity]. Qed.

Example clean_mw :
  exists q, clean_kw_value (Val "1.5 MW") = Ret (Fin q) /\ (q == 1500)%Q.
Proof. eexists; split; [vm_compute; reflexivity | reflexivity]. Qed.

Example clean_kw : clean_kw_value (Val "250 kW") = Ret (Fin 250).
Proof. reflexivity. Qed.

Example clean_ekw : clean_kw_value (Val "2 x 100eKW") = Ret (Fin 2100).
Proof. reflexivity. Qed.

Example clean_text : clean_kw_value (Val "N/A") = Ret (Fin 0).
Proof. reflexivity. Qed.

Example clean_nan_text : clean_kw_value (Val "nan") = Ret NaN.
Proof. reflexivity. Qed.

Example label_of_table_row : label_kw_range "15-30 kW" = "15-30".
Proof. reflexivity. Qed.

(** ** The per-visit totals of the lookup tables *)

Section LookupTables.
Import RebuildLookupTables.

(** What [extract_pricing] returns holds the settings it has read. *)
Lemma extract_pricing_fields (settings : gmap string setting) (p : pricing) :
  extract_pricing settings = Ret p ->
  settings !! "laborRate" = Some (LABOR_RATE p)
  /\ settings !! "oilPrice" = Some (OIL_BASE p)
  /\ settings !! "oilMarkup" = Some (OIL_MARKUP p)
  /\ py_mul (OIL_BASE p) (OIL_MARKUP p) = Ret (OIL_PRICE p)
  /\ settings !! "coolantPrice" = Some (COOLANT_BASE p)
  /\ settings !! "coolantMarkup" = Some (COOLANT_MARKUP p)
  /\ py_mul (COOLANT_BASE p) (COOLANT_MARKUP p) = Ret (COOLANT_PRICE p).
Proof.
  unfold extract_pricing, getitem.
  destruct (settings !! "laborRate") as [lr|]; [|discriminate].
  destruct (settings !! "mobilizationRate") as [mr|]; [|discriminate].
  destruct (settings !! "oilPrice") as [ob|]; [|discriminate].
  destruct (settings !! "oilMarkup") as [om|]; [|discriminate].
  cbn. destruct (py_mul ob om) as [op|] eqn:Hop; [|discriminate].
  destruct (settings !! "coolantPrice") as [cb|]; [|discriminate].
  destruct (settings !! "coolantMarkup") as [cm|]; [|discriminate].
  cbn. destruct (py_mul cb cm) as [cp|] eqn:Hcp; [|discriminate].
  destruct (settings !! "partsMarkup") as [pm|]; [|discriminate].
  cbn. intros [= <-]. cbn. auto 10.
Qed.

Lemma labor_cost_numbers (values : gmap string setting) (p : pricing) (L M R : Q) :
  values !! "labor" = Some (Num L) ->
  values !! "mobilization" = Some (Num M) ->
  LABOR_RATE p = Num R ->
  labor_cost (Table values) p = Ret (Num ((L + M) * R)).
Proof.
  intros HL HM HR. unfold labor_cost, subscript, getitem.
  rewrite HL, HM, HR. reflexivity.
Qed.

(** C1.  For a tier with labor hours L, mobilization hours M and parts
    cost P, and a labor rate R read from the settings, the Service A total
    of the row is (L + M) * R + P; for labor 8, mobilization 2, parts 150
    and a rate of 180 it is 1950. *)
Theorem service_a_total_formula
    (settings values : gmap string setting) (p : pricing) (L M P R : Q) :
  extract_pricing settings = Ret p ->
  settings !! "laborRate" = Some (Num R) ->
  values !! "labor" = Some (Num L) ->
  values !! "mobilization" = Some (Num M) ->
  values !! "parts" = Some (Num P) ->
  service_a_total (Table values) p = Ret (Num ((L + M) * R + P))
  /\ (L = 8%Q -> M = 2%Q -> P = 150%Q -> R = 180%Q ->
      service_a_total (Table values) p = Ret (Num 1950)).
Proof.
  intros Hp HR HL HM HP.
  destruct (extract_pricing_fields _ _ Hp) as (Hrate & _).
  assert (Hlr : LABOR_RATE p = Num R) by congruence.
  assert (Htotal : service_a_total (Table values) p = Ret (Num ((L + M) * R + P))).
  { unfold service_a_total. rewrite (labor_cost_numbers _ _ L M R HL HM Hlr).
    cbn. unfold getitem. rewrite HP. reflexivity. }
  split; [exact Htotal|].
  intros -> -> -> ->. rewrite Htotal. reflexivity.
Qed.

Lemma service_a_total_formula_witness :
  exists p,
    extract_pricing scenario_settings = Ret p
    /\ service_a_total (Table scenario_tier_251_400) p = Ret (Num 1950).
Proof.
  eexists. split; [reflexivity|].
  eapply (service_a_total_formula scenario_settings scenario_tier_251_400 _ 8 2 150 180);
    reflexivity.
Defined.

(** C2.  For a tier with labor hours L, mobilization hours M, filter cost
    F and G gallons of oil, and settings with labor rate R, oil price p
    and oil markup m, the Service B total of the row is a number equal to
    (L + M) * R + F + G * p * m; for labor 3, mobilization 1, filter 40,
    1.5 gallons, oil at 16 with markup 1.5 and a rate of 180 it is 796. *)
Theorem service_b_total_formula
    (settings values : gmap string setting) (p : pricing) (L M F G R op om : Q) :
  extract_pricing settings = Ret p ->
  settings !! "laborRate" = Some (Num R) ->
  settings !! "oilPrice" = Some (Num op) ->
  settings !! "oilMarkup" = Some (Num om) ->
  values !! "labor" = Some (Num L) ->
  values !! "mobilization" = Some (Num M) ->
  values !! "filterCost" = Some (Num F) ->
  values !! "oilGallons" = Some (Num G) ->
  exists total,
    service_b_total (Table values) p = Ret (Num total)
    /\ (total == (L + M) * R + F + G * op * om)%Q
    /\ (L = 3%Q -> M = 1%Q -> F = 40%Q -> G = 1.5%Q -> op = 16%Q -> om = 1.5%Q ->
        R = 180%Q ->
        (total == 796)%Q).
Proof.
  intros Hp HR Hop Hom HL HM HF HG.
  destruct (extract_pricing_fields _ _ Hp) as (Hrate & Hbase & Hmark & Hprice & _).
  assert (Hlr : LABOR_RATE p = Num R) by congruence.
  assert (Hb : OIL_BASE p = Num op) by congruence.
  assert (Hm : OIL_MARKUP p = Num om) by congruence.
  rewrite Hb, Hm in Hprice. cbn in Hprice. injection Hprice as Hprice.
  exists ((L + M) * R + F + G * (op * om))%Q.
  split; [|split].
  - unfold service_b_total. rewrite (labor_cost_numbers _ _ L M R HL HM Hlr).
    cbn. unfold getitem. rewrite HF. cbn. rewrite HG, <- Hprice. reflexivity.
  - ring.
  - intros -> -> -> -> -> -> ->. reflexivity.
Qed.

Lemma service_b_total_formula_witness :
  exists p total,
    extract_pricing scenario_settings = Ret p
    /\ service_b_total (Table scenario_tier_15_30) p = Ret (Num total)
    /\ (total == 796)%Q.
Proof.
  destruct (service_b_total_formula scenario_settings scenario_tier_15_30
              {| LABOR_RATE := Num 180; MOBILIZATION_RATE := Num 180;
                 OIL_BASE := Num 16; OIL_MARKUP := Num 1.5;
                 OIL_PRICE := Num (16 * 1.5);
                 COOLANT_BASE := Num 16; COOLANT_MARKUP := Num 1.5;
                 COOLANT_PRICE := Num (16 * 1.5); PARTS_MARKUP := Num 1.25 |}
              3 1 40 1.5 180 16 1.5
              eq_refl eq_refl eq_refl eq_refl eq_refl eq_refl eq_refl eq_refl)
    as (total & Htotal & _ & Hscenario).
  eexists. exists total. split; [reflexivity|]. split; [exact Htotal|].
  apply Hscenario; reflexivity.
Defined.

(** Services C and E follow the same pattern. *)
Lemma service_c_total_formula
    (values : gmap string setting) (p : pricing) (L M G H R cp : Q) :
  LABOR_RATE p = Num R ->
  COOLANT_PRICE p = Num cp ->
  values !! "labor" = Some (Num L) ->
  values !! "mobilization" = Some (Num M) ->
  values !! "coolantGallons" = Some (Num G) ->
  values !! "hoseBeltCost" = Some (Num H) ->
  service_c_total (Table values) p = Ret (Num ((L + M) * R + G * cp + H)).
Proof.
  intros HR Hcp HL HM HG HH. unfold service_c_total.
  rewrite (labor_cost_numbers _ _ L M R HL HM HR).
  cbn. unfold getitem. rewrite HG, Hcp. cbn. rewrite HH. reflexivity.
Qed.

Lemma service_e_total_formula
    (values : gmap string setting) (p : pricing) (L M B T D R : Q) :
  LABOR_RATE p = Num R ->
  values !! "labor" = Some (Num L) ->
  values !! "mobilization" = Some (Num M) ->
  values !! "loadBankRental" = Some (Num B) ->
  values !! "transformerRental" = Some (Num T) ->
  values !! "deliveryCost" = Some (Num D) ->
  service_e_total (Table values) p = Ret (Num ((L + M) * R + B + T + D)).
Proof.
  intros HR HL HM HB HT HD. unfold service_e_total.
  rewrite (labor_cost_numbers _ _ L M R HL HM HR).
  cbn. unfold getitem. rewrite HB. cbn. rewrite HT. cbn. rewrite HD. reflexivity.
Qed.

(** A tier without its parts cost stops the Service A row with a
    KeyError. *)
Example service_a_total_missing_parts :
  exists p, extract_pricing scenario_settings = Ret p
            /\ service_a_total (Table (delete "parts" scenario_tier_251_400)) p
               = Raise (KeyError "parts").
Proof. eexists. split; reflexivity. Qed.

End LookupTables.

(** ** Option years *)

Section OptionYears.
Import Phase4CalculatePricing.

(** C3, as the scripts have it.  Years 1 and 2 cost the year-1 total T;
    option years 3, 4 and 5 cost T * (1 + r), T * (1 + 2 r) and
    T * (1 + 3 r): the escalation is linear in the rate and starts with
    option year 3.  The five years together cost T * (5 + 6 r).
    phase4-complete-remaining.py and phase4-finalize.py compute the same
    three products from their year-1 total. *)
Theorem yearly_total_linear (r T : Q) :
  yearly_total r T 1 = Some T
  /\ yearly_total r T 2 = Some T
  /\ (exists y3, yearly_total r T 3 = Some y3
                 /\ (y3 == T * (1 + r * 1))%Q)
  /\ (exists y4, yearly_total r T 4 = Some y4
                 /\ (y4 == T * (1 + r * 2))%Q)
  /\ (exists y5, yearly_total r T 5 = Some y5
                 /\ (y5 == T * (1 + r * 3))%Q)
  /\ (five_year_total r T == T * (5 + 6 * r))%Q
  /\ (compound_total r T 1 == T)%Q.
Proof.
  repeat split.
  - exists (year3_total r T). split; [reflexivity|].
    unfold year3_total. ring.
  - exists (year4_total r T). split; reflexivity.
  - exists (year5_total r T). split; reflexivity.
  - unfold five_year_total, year3_total,
      year4_total, year5_total.
    ring.
  - change (T * 1 == T)%Q. ring.
Qed.

(** With the rate of the script and a year-1 total of 100, year 2 costs
    100 and option year 4 costs 106, where the compound law asks for 103
    and 109.2727. *)
Lemma yearly_total_not_compound :
  ~ (forall (r T : Q) (n : nat) (y : Q),
        (1 <= n)%nat -> yearly_total r T n = Some y ->
        (y == compound_total r T n)%Q).
Proof.
  intros H.
  specialize (H escalation_rate 100%Q 4%nat (year4_total escalation_rate 100)).
  assert (Hy : (year4_total escalation_rate 100
                == compound_total escalation_rate 100 4)%Q)
    by (apply H; [lia | reflexivity]).
  vm_compute in Hy. discriminate Hy.
Qed.

Example year2_at_script_rate :
  yearly_total escalation_rate 100 2 = Some 100%Q
  /\ (compound_total escalation_rate 100 2 == 103)%Q.
Proof. split; reflexivity. Qed.

Example year4_at_script_rate :
  exists y,
    yearly_total escalation_rate 100 4 = Some y /\ (y == 106)%Q
    /\ (compound_total escalation_rate 100 4 == 109.2727)%Q.
Proof. eexists. repeat split. Qed.

End OptionYears.

(** ** The kW-range classifiers *)

(** [get_kw_range] sees a number, not its representation. *)
Lemma get_kw_range_same_number (v v' : Q) :
  (v == v')%Q -> get_kw_range (Fin v) = get_kw_range (Fin v').
Proof.
  intros E. unfold get_kw_range, fle.
  rewrite !(Qleb_comp v v' E _ _ (Qeq_refl _)). reflexivity.
Qed.

(** C7.  A kW value strictly inside the range of a tier is given that
    tier, whichever of the ten tiers it is, and the tier depends on the
    value alone. *)
Theorem get_kw_range_inside (lo : Q) (hi : option Q) (label : string) (v : Q) :
  In (lo, hi, label) tiers ->
  strictly_inside v lo hi ->
  get_kw_range (Fin v) = label
  /\ (forall v' : Q, (v' == v)%Q -> get_kw_range (Fin v') = label).
Proof.
  intros Hin Hv.
  assert (Hlabel : get_kw_range (Fin v) = label).
  { unfold tiers in Hin. cbn [In] in Hin.
    unfold strictly_inside in Hv.
    repeat (destruct Hin as [[= <- <- <-] | Hin]);
      try contradiction;
      destruct Hv as [Hlo Hhi];
      unfold get_kw_range, fle; split_fle; try reflexivity; lra. }
  split; [exact Hlabel|].
  intros v' E. rewrite (get_kw_range_same_number v' v E). exact Hlabel.
Qed.

Lemma get_kw_range_inside_witness :
  get_kw_range (Fin 100) = "35-150"
  /\ (forall v' : Q, (v' == 100)%Q -> get_kw_range (Fin v') = "35-150").
Proof.
  apply (get_kw_range_inside 35 (Some 150%Q) "35-150" 100).
  - cbn. right. right. left. reflexivity.
  - split; reflexivity.
Defined.

(** The two classifiers name the same range exactly for the values above
    14 and up to 1500. *)
Lemma classifiers_agree_iff (kw : Q) :
  get_kw_range (Fin kw) = label_kw_range (CreatePerUnitExcel.get_kw_range (Fin kw))
  <-> (14 < kw /\ kw <= 1500)%Q.
Proof.
  unfold get_kw_range, CreatePerUnitExcel.get_kw_range, fle.
  split.
  - split_fle; cbn; intros E; try discriminate E; split; lra.
  - intros [H1 H2]. split_fle; try reflexivity; lra.
Qed.

(** C8.  The classifier of generate-anr6-quotes.py and the classifier of
    create-per-unit-excel.py disagree on some positive kW value, their
    labels being compared as the ranges they name. *)
Theorem classifiers_disagree :
  exists kw : Q,
    (0 < kw)%Q
    /\ label_kw_range (get_kw_range (Fin kw))
       <> label_kw_range (CreatePerUnitExcel.get_kw_range (Fin kw)).
Proof.
  exists 10%Q. split; [reflexivity|]. vm_compute. discriminate.
Qed.

Example classifiers_at_10 :
  get_kw_range (Fin 10) = "2-14"
  /\ CreatePerUnitExcel.get_kw_range (Fin 10) = "15-30 kW".
Proof. split; reflexivity. Qed.

Example classifiers_at_2000 :
  get_kw_range (Fin 2000) = "1501+"
  /\ CreatePerUnitExcel.get_kw_range (Fin 2000) = "1501-2050 kW".
Proof. split; reflexivity. Qed.

(** On the bounds and in the gaps between the ranges the labels name:
    an upper bound belongs to its tier, and a value between two tiers
    goes to the upper one. *)
Example get_kw_range_bounds :
  get_kw_range (Fin 14) = "2-14"
  /\ get_kw_range (Fin 14.5) = "15-30"
  /\ get_kw_range (Fin 30) = "15-30"
  /\ get_kw_range (Fin 31) = "35-150"
  /\ get_kw_range (Fin 150.5) = "151-250"
  /\ get_kw_range (Fin 1500) = "1051-1500"
  /\ get_kw_range (Fin 1500.5) = "1501+"
  /\ get_kw_range PosInf = "1501+"
  /\ get_kw_range NaN = "1501+"
  /\ get_kw_range NegInf = "2-14".
Proof. repeat split. Qed.

(** ** Zero, negative and non-numeric kW values *)

Lemma prefix_cons (a b : ascii) (s1 s2 : string) :
  String.prefix (String a s1) (String b s2) = Ascii.eqb a b && String.prefix s1 s2.
Proof.
  cbn [String.prefix]. destruct (ascii_dec a b) as [->|N].
  - rewrite Ascii.eqb_refl. reflexivity.
  - apply Ascii.eqb_neq in N. rewrite N. reflexivity.
Qed.

Lemma contains_ekw_kw (s : string) : contains "EKW" s = true -> contains "KW" s = true.
Proof.
  induction s as [|c s IH]; [discriminate|].
  cbn [contains]. intros H. apply orb_true_iff. right.
  apply orb_true_iff in H. destruct H as [H|H]; [|apply IH, H].
  rewrite prefix_cons in H. apply andb_true_iff in H. destruct H as [_ H].
  destruct s as [|c1 s]; [discriminate|].
  cbn [contains]. rewrite H. reflexivity.
Qed.

(** Text that names no unit and is no number is cleaned to 0. *)
Lemma clean_kw_value_text (s : string) :
  contains "HP" (upper (strip s)) = false ->
  contains "MW" (upper (strip s)) = false ->
  contains "KW" (upper (strip s)) = false ->
  raises (float_of_str (upper (strip s))) ->
  clean_kw_value (Val s) = Ret (Fin 0).
Proof.
  intros Hhp Hmw Hkw [e He]. unfold clean_kw_value.
  rewrite Hhp, Hmw, Hkw.
  destruct (contains "EKW" (upper (strip s))) eqn:Hekw.
  - apply contains_ekw_kw in Hekw. congruence.
  - cbn. rewrite He. reflexivity.
Qed.

Lemma fgt_not_fle (kw : pyfloat) : fgt kw (Fin 0) = true -> fle kw (Fin 0) = false.
Proof.
  destruct kw as [q| | |]; cbn; try congruence.
  intros H. apply negb_true_iff in H. exact H.
Qed.

(** The rows [kw_ranges] returns are the cleaned values above 0, each
    with its range. *)
Lemma kw_ranges_rows (column : list cell) (rows : list (pyfloat * string)) :
  kw_ranges column = Ret rows ->
  exists kws,
    mapM clean_kw_value column = Ret kws
    /\ rows = List.map (fun kw => (kw, get_kw_range kw)) (billable kws).
Proof.
  unfold kw_ranges. destruct (mapM clean_kw_value column) as [kws|e]; cbn.
  - intros [= <-]. exists kws. split; reflexivity.
  - discriminate.
Qed.

(** C4, as generate-anr6-quotes.py has it.  A kW value that is zero,
    negative, or a text without unit that is no number is not reported as
    an error.  [get_kw_range] answers "2-14" for every value up to 14,
    zero and the negative values among them.  [clean_kw_value] turns text
    that names no unit and is no number into 0.  [main] keeps the rows
    whose cleaned value is above 0 and classifies only those, so a zero or
    negative value is left out of the result without any record. *)
Theorem nonpositive_kw_left_out :
  (forall kw : pyfloat, fle kw (Fin 14) = true -> get_kw_range kw = "2-14")
  /\ (forall s : string,
         contains "HP" (upper (strip s)) = false ->
         contains "MW" (upper (strip s)) = false ->
         contains "KW" (upper (strip s)) = false ->
         raises (float_of_str (upper (strip s))) ->
         clean_kw_value (Val s) = Ret (Fin 0))
  /\ (forall (column : list cell) (rows : list (pyfloat * string)),
         kw_ranges column = Ret rows ->
         forall kw range, In (kw, range) rows ->
           fgt kw (Fin 0) = true /\ fle kw (Fin 0) = false
           /\ range = get_kw_range kw).
Proof.
  split; [|split].
  - intros kw H. unfold get_kw_range. rewrite H. reflexivity.
  - exact clean_kw_value_text.
  - intros column rows Hrows kw range Hin.
    destruct (kw_ranges_rows _ _ Hrows) as (kws & _ & ->).
    apply in_map_iff in Hin. destruct Hin as (kw' & [= <- <-] & Hin).
    unfold billable in Hin. apply filter_In in Hin. destruct Hin as [_ Hgt].
    split; [exact Hgt|]. split; [apply fgt_not_fle, Hgt | reflexivity].
Qed.

Lemma nonpositive_kw_left_out_witness :
  get_kw_range (Fin (-5)) = "2-14"
  /\ clean_kw_value (Val "N/A") = Ret (Fin 0)
  /\ (fgt (Fin 20) (Fin 0) = true /\ fle (Fin 20) (Fin 0) = false
      /\ "15-30" = get_kw_range (Fin 20)).
Proof.
  destruct nonpositive_kw_left_out as (Hrange & Htext & Hrows).
  split; [|split].
  - apply Hrange. reflexivity.
  - apply Htext; try reflexivity. exists (ValueError "N/A"). reflexivity.
  - apply (Hrows [Val "0"; Val "-5"; Val "N/A"; Val "20"] [(Fin 20, "15-30")]).
    + reflexivity.
    + left. reflexivity.
Defined.

(** Zero, a negative value and a text that is no number raise nothing:
    the row is left out, the classifier answers "2-14", the text becomes
    0. *)
Lemma nonpositive_kw_not_rejected :
  kw_ranges [Val "0"] = Ret []
  /\ kw_ranges [Val "-5"] = Ret []
  /\ kw_ranges [Val "N/A"] = Ret []
  /\ get_kw_range (Fin 0) = "2-14"
  /\ get_kw_range (Fin (-5)) = "2-14"
  /\ clean_kw_value (Val "N/A") = Ret (Fin 0)
  /\ ~ raises (kw_ranges [Val "0"; Val "-5"; Val "N/A"]).
Proof.
  repeat split. intros [e He]. discriminate He.
Qed.

(** ** [clean_kw_value] is not total *)

(** C10 at inputs where it fails.  Text that names a unit and holds no
    well-formed number makes [clean_kw_value] raise ValueError: the
    conversions of the HP, MW and KW branches stand outside the [try] that
    guards the last branch. *)
Theorem clean_kw_value_raises :
  clean_kw_value (Val "N/A HP") = Raise (ValueError "N/A")
  /\ clean_kw_value (Val "HP") = Raise (ValueError "")
  /\ clean_kw_value (Val "TBD MW") = Raise (ValueError "TBD")
  /\ clean_kw_value (Val "1.2.3 kW") = Raise (ValueError "1.2.3")
  /\ clean_kw_value (Val "100 kW (134 HP)") = Raise (ValueError "100 KW (134 )").
Proof. repeat split. Qed.

(** Where the number of an HP or MW text is well formed, the result is
    the conversion to kW. *)
Lemma clean_kw_value_hp (s : string) (hp : pyfloat) :
  contains "HP" (upper (strip s)) = true ->
  float_of_str (strip (replace "HP" "" (upper (strip s)))) = Ret hp ->
  clean_kw_value (Val s) = Ret (round1 (fmul hp (Fin 0.746))).
Proof.
  intros Hc Hf. unfold clean_kw_value. rewrite Hc. cbn. rewrite Hf. reflexivity.
Qed.

Lemma clean_kw_value_mw (s : string) (mw : pyfloat) :
  contains "HP" (upper (strip s)) = false ->
  contains "MW" (upper (strip s)) = true ->
  float_of_str (strip (replace "MW" "" (upper (strip s)))) = Ret mw ->
  clean_kw_value (Val s) = Ret (fmul mw (Fin 1000)).
Proof.
  intros Hh Hc Hf. unfold clean_kw_value. rewrite Hh, Hc. cbn. rewrite Hf. reflexivity.
Qed.

(** A missing value and a text that names no unit never raise. *)
Lemma clean_kw_value_returns (val : cell) :
  match val with
  | NA => True
  | Val s => contains "HP" (upper (strip s)) = false
             /\ contains "MW" (upper (strip s)) = false
             /\ contains "KW" (upper (strip s)) = false
  end ->
  exists kw, clean_kw_value val = Ret kw.
Proof.
  destruct val as [|s]; [intros _; exists (Fin 0); reflexivity|].
  intros (Hhp & Hmw & Hkw). unfold clean_kw_value. rewrite Hhp, Hmw, Hkw.
  destruct (contains "EKW" (upper (strip s))) eqn:Hekw.
  - apply contains_ekw_kw in Hekw. congruence.
  - cbn. destruct (float_of_str (upper (strip s))) as [x|e]; eexists; reflexivity.
Qed.

(** It raises exactly from a conversion in the HP, MW or KW branch. *)
Lemma clean_kw_value_exception_source (s : string) (e : exn) :
  clean_kw_value (Val s) = Raise e ->
  let val_str := upper (strip s) in
  (contains "HP" val_str = true
   /\ float_of_str (strip (replace "HP" "" val_str)) = Raise e)
  \/ (contains "HP" val_str = false /\ contains "MW" val_str = true
      /\ float_of_str (strip (replace "MW" "" val_str)) = Raise e)
  \/ (contains "HP" val_str = false /\ contains "MW" val_str = false
      /\ contains "KW" val_str = true
      /\ float_of_str (keep_digits_and_dots val_str) = Raise e).
Proof.
  unfold clean_kw_value. cbn zeta.
  destruct (contains "HP" (upper (strip s))) eqn:Hhp.
  - destruct (float_of_str (strip (replace "HP" "" (upper (strip s))))) as [x|e'] eqn:Hf;
      cbn; [discriminate|]. intros [= <-]. left. auto.
  - destruct (contains "MW" (upper (strip s))) eqn:Hmw.
    + destruct (float_of_str (strip (replace "MW" "" (upper (strip s))))) as [x|e'] eqn:Hf;
        cbn; [discriminate|]. intros [= <-]. right. left. auto.
    + destruct (contains "KW" (upper (strip s))) eqn:Hkw.
      * cbn. destruct (String.eqb _ ""); [discriminate|].
        intros H. right. right. auto.
      * destruct (contains "EKW" (upper (strip s))) eqn:Hekw.
        -- apply contains_ekw_kw in Hekw. congruence.
        -- cbn. destruct (float_of_str (upper (strip s))); discriminate.
Qed.

(** ** A rate field missing from the settings *)

Section MissingField.
Import RebuildLookupTables FetchCalculatorSettings.

Lemma extract_pricing_first_missing (settings : gmap string setting) (key : string) :
  numeric_rates settings ->
  first_missing settings = Some key ->
  extract_pricing settings = Raise (KeyError key).
Proof.
  intros Hnum. unfold first_missing, extract_pricing, getitem, required_fields.
  cbn [find].
  destruct (settings !! "laborRate") as [lr|] eqn:H1; [|intros [= <-]; reflexivity].
  destruct (settings !! "mobilizationRate") as [mr|] eqn:H2; [|intros [= <-]; reflexivity].
  destruct (settings !! "oilPrice") as [ob|] eqn:H3; [|intros [= <-]; reflexivity].
  destruct (settings !! "oilMarkup") as [om|] eqn:H4; [|intros [= <-]; reflexivity].
  destruct (Hnum "oilPrice" ob) as [q3 ->]; [cbn; tauto | exact H3 |].
  destruct (Hnum "oilMarkup" om) as [q4 ->]; [cbn; tauto | exact H4 |].
  destruct (settings !! "coolantPrice") as [cb|] eqn:H5; [|intros [= <-]; reflexivity].
  destruct (settings !! "coolantMarkup") as [cm|] eqn:H6; [|intros [= <-]; reflexivity].
  destruct (Hnum "coolantPrice" cb) as [q5 ->]; [cbn; tauto | exact H5 |].
  destruct (Hnum "coolantMarkup" cm) as [q6 ->]; [cbn; tauto | exact H6 |].
  destruct (settings !! "partsMarkup") as [pm|] eqn:H7; [|intros [= <-]; reflexivity].
  discriminate.
Qed.

(** C6, as the scripts have it.  The getters of
    fetch_calculator_settings.py never stop on a missing field: they put
    their built-in default in its place (180.00 for laborRate, 16.00 for
    oilPrice, 1.5 for oilMarkup, 16.55, 16.55 and 60.00 for the Service D
    analysis costs) and return what the settings hold when the field is
    there.  rebuild-lookup-tables-with-settings.py reads the fields by
    subscript: with numeric settings it stops at the first missing rate
    with a KeyError that names it, and a missing serviceD or analysis
    cost stops it in the same way. *)
Theorem missing_field_default_or_key_error (settings : gmap string setting) :
  (settings !! "laborRate" = None ->
     get_labor_rates settings !! "labor" = Some (Num 180.00))
  /\ (settings !! "oilPrice" = None ->
        get_oil_pricing settings !! "price" = Some (Num 16.00))
  /\ (settings !! "oilMarkup" = None ->
        get_oil_pricing settings !! "markup" = Some (Num 1.5))
  /\ (settings !! "serviceD" = None ->
        get_service_d_prices settings
        = Ret (<["oil" := Num 16.55]> (<["coolant" := Num 16.55]>
                 (<["fuel" := Num 60.00]> ∅))))
  /\ (forall d, settings !! "serviceD" = Some (Table d) ->
        d !! "oilAnalysisCost" = None ->
        exists prices, get_service_d_prices settings = Ret prices
                       /\ prices !! "oil" = Some (Num 16.55))
  /\ (forall v, settings !! "laborRate" = Some v ->
        get_labor_rates settings !! "labor" = Some v)
  /\ (forall key, numeric_rates settings -> first_missing settings = Some key ->
        extract_pricing settings = Raise (KeyError key))
  /\ (settings !! "serviceD" = None ->
        service_d_fees settings = Raise (KeyError "serviceD"))
  /\ (forall d, settings !! "serviceD" = Some (Table d) ->
        d !! "oilAnalysisCost" = None ->
        service_d_fees settings = Raise (KeyError "oilAnalysisCost")).
Proof.
  repeat apply conj.
  - intros H. unfold get_labor_rates, dict_get. rewrite H. reflexivity.
  - intros H. unfold get_oil_pricing, dict_get. rewrite H. reflexivity.
  - intros H. unfold get_oil_pricing, dict_get.
    rewrite lookup_insert_ne by discriminate. rewrite H. reflexivity.
  - intros H. unfold get_service_d_prices, dict_get. rewrite H. reflexivity.
  - intros d Hd Hoil. unfold get_service_d_prices, dict_get. rewrite Hd. cbn.
    unfold dict_get. rewrite Hoil. eexists. split; [reflexivity|]. reflexivity.
  - intros v H. unfold get_labor_rates, dict_get. rewrite H. reflexivity.
  - intros key Hnum Hmiss. apply extract_pricing_first_missing; assumption.
  - intros H. unfold service_d_fees, getitem. rewrite H. reflexivity.
  - intros d Hd Hoil. unfold service_d_fees, getitem. rewrite Hd. cbn.
    unfold getitem. rewrite Hoil. reflexivity.
Qed.

Lemma missing_field_default_or_key_error_witness :
  get_labor_rates only_oil_price !! "labor" = Some (Num 180.00)
  /\ get_oil_pricing only_oil_price !! "markup" = Some (Num 1.5)
  /\ extract_pricing only_oil_price = Raise (KeyError "laborRate")
  /\ service_d_fees only_oil_price = Raise (KeyError "serviceD").
Proof.
  destruct (missing_field_default_or_key_error only_oil_price)
    as (Hlabor & _ & Hmarkup & _ & _ & _ & Hkey & Hd & _).
  split; [|split; [|split]].
  - apply Hlabor. reflexivity.
  - apply Hmarkup. reflexivity.
  - apply Hkey; [|reflexivity].
    intros key v _ Hv. unfold only_oil_price in Hv.
    apply lookup_singleton_Some in Hv. destruct Hv as [_ <-]. exists 17%Q. reflexivity.
  - apply Hd. reflexivity.
Defined.

(** Without laborRate, oilPrice, oilMarkup and serviceD the getters
    return their defaults and nothing is raised. *)
Lemma missing_field_default_substituted :
  (∅ : gmap string setting) !! "laborRate" = None
  /\ get_labor_rates ∅ !! "labor" = Some (Num 180.00)
  /\ get_oil_pricing ∅ !! "price" = Some (Num 16.00)
  /\ get_oil_pricing ∅ !! "markup" = Some (Num 1.5)
  /\ (exists prices, get_service_d_prices ∅ = Ret prices
                     /\ prices !! "oil" = Some (Num 16.55)
                     /\ prices !! "coolant" = Some (Num 16.55)
                     /\ prices !! "fuel" = Some (Num 60.00)).
Proof.
  repeat split. eexists. repeat split.
Qed.

End MissingField.

(** ** Sums of floats *)

#[global] Instance feq_equivalence : Equivalence feq.
Proof.
  split.
  - intros [q| | |]; cbn; auto. reflexivity.
  - intros [q| | |] [q'| | |]; cbn; auto. intros H. symmetry. exact H.
  - intros [q| | |] [q'| | |] [q''| | |]; cbn; auto; try contradiction.
    intros H1 H2. rewrite H1. exact H2.
Qed.

#[global] Instance fadd_proper : Proper (feq ==> feq ==> feq) fadd.
Proof.
  intros [q| | |] [q'| | |] H1 [r| | |] [r'| | |] H2; cbn in *;
    auto; try contradiction.
  rewrite H1, H2. reflexivity.
Qed.

Lemma fadd_comm (a b : pyfloat) : feq (fadd a b) (fadd b a).
Proof. destruct a, b; cbn; auto. ring. Qed.

Lemma fadd_assoc (a b c : pyfloat) : feq (fadd (fadd a b) c) (fadd a (fadd b c)).
Proof. destruct a, b, c; cbn; auto. ring. Qed.



(** [mapM] in the result monad. *)
Lemma mapM_cons_Ret {A B : Type} (f : A -> pyres B) (x : A) (l : list A) (ks : list B) :
  mapM f (x :: l) = Ret ks ->
  exists k ks0, f x = Ret k /\ mapM f l = Ret ks0 /\ ks = k :: ks0.
Proof.
  cbn. destruct (f x) as [k|e]; cbn; [|discriminate].
  destruct (mapM f l) as [ks0|e]; cbn; [|discriminate].
  intros [= <-]. exists k, ks0. auto.
Qed.

Lemma mapM_cons_intro {A B : Type} (f : A -> pyres B) (x : A) (l : list A)
    (k : B) (ks : list B) :
  f x = Ret k -> mapM f l = Ret ks -> mapM f (x :: l) = Ret (k :: ks).
Proof. intros H1 H2. cbn. rewrite H1. cbn. rewrite H2. reflexivity. Qed.


(** ** The batch aggregator of phase4-calculate-pricing.py *)

Section Aggregator.
Import Phase4CalculatePricing.

Lemma process_step (st : state) (item : generator * server) :
  process st item =
  {| results := results st ++ [entry item];
     success_count := success_count st + (if is_success (entry item) then 1 else 0);
     total_value := add_to (total_value st) (added item) |}.
Proof.
  destruct st as [rs n t], item as [gen srv].
  unfold process, entry, added, record_failure. cbn [fst snd results success_count total_value].
  destruct (post_with_retries srv 0 (max_retries - 1)) as [msg|code body]; cbn.
  - f_equal. lia.
  - destruct (code =? 200)%Z; cbn; [|f_equal; lia].
    destruct (read_total body) as [[calc annual]|e]; cbn; [|f_equal; lia].
    destruct (read_breakdown calc) as [b|e]; cbn; f_equal; lia.
Qed.

Lemma fold_process (batch : list (generator * server)) (st : state) :
  fold_left process batch st =
  {| results := results st ++ List.map entry batch;
     success_count := success_count st + length (List.filter is_success (List.map entry batch));
     total_value := fold_left add_to (List.map added batch) (total_value st) |}.
Proof.
  revert st. induction batch as [|item batch IH]; intros st; cbn [fold_left List.map].
  - destruct st. cbn. rewrite app_nil_r. f_equal. lia.
  - rewrite IH, process_step. cbn [results success_count total_value List.filter].
    rewrite <- app_assoc. f_equal.
    destruct (is_success (entry item)); cbn; lia.
Qed.

Lemma run_results (batch : list (generator * server)) :
  results (run batch) = List.map entry batch.
Proof. unfold run. rewrite fold_process. reflexivity. Qed.

Lemma run_total_value (batch : list (generator * server)) :
  total_value (run batch) = running_sum (Fin 0) (omap added batch).
Proof.
  unfold run. rewrite fold_process. cbn [total_value initial].
  generalize (Fin 0). induction batch as [|item batch IH]; intros a; [reflexivity|].
  cbn [List.map fold_left]. rewrite IH. unfold running_sum. cbn.
  destruct (added item); reflexivity.
Qed.



Lemma added_price (item : generator * server) :
  counted_but_failed (snd item) = false -> added item = price_of (entry item).
Proof.
  unfold counted_but_failed, added, entry.
  destruct (post_with_retries (snd item) 0 (max_retries - 1)) as [msg|code body];
    [reflexivity|].
  destruct (code =? 200)%Z; [|reflexivity].
  destruct (read_total body) as [[calc annual]|e]; [|reflexivity].
  destruct (read_breakdown calc); [reflexivity | discriminate].
Qed.



(** The retry loop: three attempts at most, and only status 429 is
    tried again. *)
Example retries_exhausted :
  post_with_retries (fun _ => Response 429 None) 0 (max_retries - 1) = Response 429 None
  /\ Phase4CalculatePricing.results
       (run [({| unitNumber := "G-07"; kwRating := 80; manufacturer := None |},
              fun _ => Response 429 None)])
     = [Failure "G-07" 80 "HTTP 429"].
Proof. split; reflexivity. Qed.

Example third_attempt_used :
  post_with_retries
    (fun attempt => if (attempt <? 2)%nat then Response 429 None else Response 500 None)
    0 (max_retries - 1)
  = Response 500 None.
Proof. reflexivity. Qed.

Example fourth_attempt_never_made :
  post_with_retries
    (fun attempt => if (attempt <? 3)%nat then Response 429 None else Response 200 None)
    0 (max_retries - 1)
  = Response 429 None.
Proof. reflexivity. Qed.


Example sample_batch_run :
  List.map is_success (results (run sample_batch)) = [true; false; true]
  /\ results (run sample_batch) !! 1%nat = Some (Failure "G-02" (-5) "HTTP 400")
  /\ success_count (run sample_batch) = 2%nat
  /\ feq (total_value (run sample_batch)) (Fin 2746).
Proof. vm_compute. repeat split. Qed.

Example counted_then_refused :
  results (run null_labor_batch)
    = [Failure "G-09" 300
         "float() argument must be a string or a real number, not 'NoneType'"]
  /\ success_count (run null_labor_batch) = 0%nat
  /\ total_value (run null_labor_batch) = Fin (0 + 100)
  /\ List.map (fun item => counted_but_failed (snd item)) null_labor_batch = [true].
Proof. vm_compute. repeat split. Qed.


End Aggregator.

(** ** The running total of lnbl-per-unit-calculation.py *)

Section PerUnitTotal.
Import LnblPerUnitCalculation.

Lemma process_visit (st : state) (item : generator * server) :
  process st item = (o ← visit item; Ret (record st o)).
Proof.
  destruct item as [gen srv]. unfold process, visit.
  destruct (srv 0%nat) as [msg|code body]; [reflexivity|].
  destruct (code =? 200)%Z; [|reflexivity].
  destruct (response_json body) as [result|e]; [cbn|reflexivity].
  destruct (json_subscript result "calculation") as [calc|e]; [cbn|reflexivity].
  destruct (json_subscript calc "subtotal" ≫= float_of_json) as [unit_total|e];
    [cbn|reflexivity].
  destruct (json_get calc "serviceBreakdown" (JObj ∅)) as [services|e]; [cbn|reflexivity].
  destruct (service_cost services "A - Comprehensive Inspection"); [cbn|reflexivity].
  destruct (service_cost services "B - Oil & Filter Service"); [cbn|reflexivity].
  destruct (service_cost services "D - Oil & Fuel Analysis"); [cbn|reflexivity].
  destruct (service_cost services "E - Load Bank Testing"); reflexivity.
Qed.

Lemma run_from_visits (batch : list (generator * server)) (st : state) :
  run_from st batch = (os ← mapM visit batch; Ret (fold_left record os st)).
Proof.
  revert st. induction batch as [|item batch IH]; intros st; [reflexivity|].
  cbn [run_from]. rewrite process_visit. cbn [mapM].
  destruct (visit item) as [o|e]; [cbn|reflexivity].
  rewrite IH. destruct (mapM visit batch); reflexivity.
Qed.



End PerUnitTotal.



(** * Further properties of the scripts *)

(** ** The ranges the classifiers answer with *)

(** What [get_kw_range] of generate-anr6-quotes.py answers, value by
    value: every upper bound belongs to its tier, the values between two
    tiers (above 30 and below 35, say) go to the upper one, and everything
    up to 14 is "2-14". *)
Theorem get_kw_range_partition (v : Q) :
  (get_kw_range (Fin v) = "2-14" <-> v <= 14)%Q
  /\ (get_kw_range (Fin v) = "15-30" <-> 14 < v /\ v <= 30)%Q
  /\ (get_kw_range (Fin v) = "35-150" <-> 30 < v /\ v <= 150)%Q
  /\ (get_kw_range (Fin v) = "151-250" <-> 150 < v /\ v <= 250)%Q
  /\ (get_kw_range (Fin v) = "251-400" <-> 250 < v /\ v <= 400)%Q
  /\ (get_kw_range (Fin v) = "401-500" <-> 400 < v /\ v <= 500)%Q
  /\ (get_kw_range (Fin v) = "501-670" <-> 500 < v /\ v <= 670)%Q
  /\ (get_kw_range (Fin v) = "671-1050" <-> 670 < v /\ v <= 1050)%Q
  /\ (get_kw_range (Fin v) = "1051-1500" <-> 1050 < v /\ v <= 1500)%Q
  /\ (get_kw_range (Fin v) = "1501+" <-> 1500 < v)%Q.
Proof.
  unfold get_kw_range, fle.
  repeat match goal with |- _ /\ _ => split end; split_fle;
    (split;
     [intros E; try discriminate E;
      repeat match goal with |- _ /\ _ => split end; lra
     |intros H; try reflexivity;
      repeat match goal with H' : _ /\ _ |- _ => destruct H' end; lra]).
Qed.

(** What [get_kw_range] of create-per-unit-excel.py answers: it has no
    bucket below "15-30 kW", which takes every value up to 30, and it
    splits the values above 1500 at 2050. *)
Theorem per_unit_get_kw_range_partition (v : Q) :
  (CreatePerUnitExcel.get_kw_range (Fin v) = "15-30 kW" <-> v <= 30)%Q
  /\ (CreatePerUnitExcel.get_kw_range (Fin v) = "35-150 kW" <-> 30 < v /\ v <= 150)%Q
  /\ (CreatePerUnitExcel.get_kw_range (Fin v) = "151-250 kW" <-> 150 < v /\ v <= 250)%Q
  /\ (CreatePerUnitExcel.get_kw_range (Fin v) = "251-400 kW" <-> 250 < v /\ v <= 400)%Q
  /\ (CreatePerUnitExcel.get_kw_range (Fin v) = "401-500 kW" <-> 400 < v /\ v <= 500)%Q
  /\ (CreatePerUnitExcel.get_kw_range (Fin v) = "501-670 kW" <-> 500 < v /\ v <= 670)%Q
  /\ (CreatePerUnitExcel.get_kw_range (Fin v) = "671-1050 kW" <-> 670 < v /\ v <= 1050)%Q
  /\ (CreatePerUnitExcel.get_kw_range (Fin v) = "1051-1500 kW"
      <-> 1050 < v /\ v <= 1500)%Q
  /\ (CreatePerUnitExcel.get_kw_range (Fin v) = "1501-2050 kW"
      <-> 1500 < v /\ v <= 2050)%Q
  /\ (CreatePerUnitExcel.get_kw_range (Fin v) = "2050+ kW" <-> 2050 < v)%Q.
Proof.
  unfold CreatePerUnitExcel.get_kw_range, fle.
  repeat match goal with |- _ /\ _ => split end; split_fle;
    (split;
     [intros E; try discriminate E;
      repeat match goal with |- _ /\ _ => split end; lra
     |intros H; try reflexivity;
      repeat match goal with H' : _ /\ _ |- _ => destruct H' end; lra]).
Qed.

(** ** The lookup tables: when the totals exist, and how they move *)

Section LookupTablesMore.
Import RebuildLookupTables.

Lemma extract_pricing_returned (settings : gmap string setting) (p : pricing) :
  extract_pricing settings = Ret p ->
  exists (lr mr pm : setting) (ob om cb cm : Q),
    settings !! "laborRate" = Some lr
    /\ settings !! "mobilizationRate" = Some mr
    /\ settings !! "oilPrice" = Some (Num ob)
    /\ settings !! "oilMarkup" = Some (Num om)
    /\ settings !! "coolantPrice" = Some (Num cb)
    /\ settings !! "coolantMarkup" = Some (Num cm)
    /\ settings !! "partsMarkup" = Some pm
    /\ p = {| LABOR_RATE := lr; MOBILIZATION_RATE := mr;
              OIL_BASE := Num ob; OIL_MARKUP := Num om;
              OIL_PRICE := Num (ob * om);
              COOLANT_BASE := Num cb; COOLANT_MARKUP := Num cm;
              COOLANT_PRICE := Num (cb * cm); PARTS_MARKUP := pm |}.
Proof.
  unfold extract_pricing, getitem.
  destruct (settings !! "laborRate") as [lr|]; [|discriminate].
  destruct (settings !! "mobilizationRate") as [mr|]; [|discriminate].
  destruct (settings !! "oilPrice") as [[ob|?]|]; [| |discriminate];
    (destruct (settings !! "oilMarkup") as [[om|?]|]; [| |discriminate]);
    cbn; try discriminate.
  destruct (settings !! "coolantPrice") as [[cb|?]|]; [| |discriminate];
    (destruct (settings !! "coolantMarkup") as [[cm|?]|]; [| |discriminate]);
    cbn; try discriminate.
  destruct (settings !! "partsMarkup") as [pm|]; [|discriminate].
  cbn. intros [= <-]. exists lr, mr, pm, ob, om, cb, cm. auto 10.
Qed.

Lemma service_a_total_returned
    (values : gmap string setting) (p : pricing) (total : setting) :
  service_a_total (Table values) p = Ret total ->
  exists L M P R : Q,
    values !! "labor" = Some (Num L)
    /\ values !! "mobilization" = Some (Num M)
    /\ values !! "parts" = Some (Num P)
    /\ LABOR_RATE p = Num R
    /\ total = Num ((L + M) * R + P).
Proof.
  unfold service_a_total, labor_cost, subscript, getitem.
  destruct (values !! "labor") as [[L|?]|]; [| |discriminate];
    (destruct (values !! "mobilization") as [[M|?]|]; [| |discriminate]);
    cbn; try discriminate.
  destruct (LABOR_RATE p) as [R|?]; cbn; [|discriminate].
  destruct (values !! "parts") as [[P|?]|]; cbn; try discriminate.
  intros [= <-]. exists L, M, P, R. auto.
Qed.



Lemma service_b_total_numbers
    (values : gmap string setting) (p : pricing) (L M F G R op : Q) :
  LABOR_RATE p = Num R ->
  OIL_PRICE p = Num op ->
  values !! "labor" = Some (Num L) ->
  values !! "mobilization" = Some (Num M) ->
  values !! "filterCost" = Some (Num F) ->
  values !! "oilGallons" = Some (Num G) ->
  service_b_total (Table values) p = Ret (Num ((L + M) * R + F + G * op)).
Proof.
  intros HR Hop HL HM HF HG. unfold service_b_total.
  rewrite (labor_cost_numbers _ _ L M R HL HM HR).
  cbn. unfold getitem. rewrite HF. cbn. rewrite HG, Hop. reflexivity.
Qed.

(** With hours that are not negative, a higher labor rate never lowers
    the total of a Service A or a Service B row; the difference is the
    hours times the difference of the rates. *)
Theorem totals_monotone_in_labor_rate
    (values : gmap string setting) (p : pricing) (L M R R' : Q) :
  values !! "labor" = Some (Num L) ->
  values !! "mobilization" = Some (Num M) ->
  (0 <= L + M)%Q ->
  (R <= R')%Q ->
  (forall a a' : Q,
      service_a_total (Table values) (with_labor_rate p R) = Ret (Num a) ->
      service_a_total (Table values) (with_labor_rate p R') = Ret (Num a') ->
      (a <= a')%Q /\ (a' - a == (L + M) * (R' - R))%Q)
  /\ (forall b b' : Q,
        service_b_total (Table values) (with_labor_rate p R) = Ret (Num b) ->
        service_b_total (Table values) (with_labor_rate p R') = Ret (Num b') ->
        (b <= b')%Q /\ (b' - b == (L + M) * (R' - R))%Q).
Proof.
  intros HL HM Hhours Hrate.
  assert (Hstep : ((L + M) * R <= (L + M) * R')%Q).
  { rewrite !(Qmult_comm (L + M)). apply Qmult_le_compat_r; assumption. }
  split.
  - intros a a' Ha Ha'.
    apply service_a_total_returned in Ha. apply service_a_total_returned in Ha'.
    destruct Ha as (L1 & M1 & P1 & R1 & HL1 & HM1 & HP1 & HR1 & Ea).
    destruct Ha' as (L2 & M2 & P2 & R2 & HL2 & HM2 & HP2 & HR2 & Ea').
    cbn in HR1, HR2.
    assert (L1 = L) by congruence. assert (M1 = M) by congruence.
    assert (L2 = L) by congruence. assert (M2 = M) by congruence.
    assert (P2 = P1) by congruence.
    assert (R1 = R) by congruence. assert (R2 = R') by congruence.
    subst. injection Ea as ->. injection Ea' as ->.
    split; [lra | ring].
  - intros b b'. unfold service_b_total.
    rewrite (labor_cost_numbers _ (with_labor_rate p R) L M R HL HM eq_refl).
    rewrite (labor_cost_numbers _ (with_labor_rate p R') L M R' HL HM eq_refl).
    cbn. unfold getitem.
    destruct (values !! "filterCost") as [[F|?]|]; cbn; try discriminate.
    destruct (values !! "oilGallons") as [[G|?]|]; cbn; try discriminate.
    destruct (OIL_PRICE p) as [op|?]; cbn; try discriminate.
    intros [= <-] [= <-]. split; [lra | ring].
Qed.

Lemma totals_monotone_in_labor_rate_witness :
  exists a a' : Q,
    service_a_total (Table scenario_tier_251_400)
      (with_labor_rate {| LABOR_RATE := Num 0; MOBILIZATION_RATE := Num 180;
                          OIL_BASE := Num 16; OIL_MARKUP := Num 1.5;
                          OIL_PRICE := Num 24; COOLANT_BASE := Num 16;
                          COOLANT_MARKUP := Num 1.5; COOLANT_PRICE := Num 24;
                          PARTS_MARKUP := Num 1.25 |} 180) = Ret (Num a)
    /\ (a <= a')%Q /\ (a' - a == (8 + 2) * (215 - 180))%Q.
Proof.
  destruct (totals_monotone_in_labor_rate scenario_tier_251_400
              {| LABOR_RATE := Num 0; MOBILIZATION_RATE := Num 180;
                 OIL_BASE := Num 16; OIL_MARKUP := Num 1.5;
                 OIL_PRICE := Num 24; COOLANT_BASE := Num 16;
                 COOLANT_MARKUP := Num 1.5; COOLANT_PRICE := Num 24;
                 PARTS_MARKUP := Num 1.25 |} 8 2 180 215
              eq_refl eq_refl) as [Ha _].
  - vm_compute. discriminate.
  - vm_compute. discriminate.
  - exists 1950%Q, 2300%Q. split; [reflexivity|].
    apply Ha; reflexivity.
Defined.

End LookupTablesMore.

(** ** phase4-calculate-pricing.py: the retry loop and the counts *)

Section Phase4More.
Import Phase4CalculatePricing.

Lemma post_with_retries_attempts (srv : server) (retries_left attempt : nat) :
  exists k : nat,
    (k <= retries_left)%nat
    /\ post_with_retries srv attempt retries_left = srv (attempt + k)%nat
    /\ (forall j : nat, (j < k)%nat -> is_429 (srv (attempt + j)%nat))
    /\ ((k < retries_left)%nat -> ~ is_429 (srv (attempt + k)%nat)).
Proof.
  revert attempt. induction retries_left as [|r IH]; intros attempt.
  - exists 0%nat. rewrite Nat.add_0_r. repeat split; try lia.
    cbn. destruct (srv attempt); reflexivity.
  - cbn [post_with_retries].
    destruct (srv attempt) as [msg|code body] eqn:Hsrv.
    + exists 0%nat. rewrite Nat.add_0_r. repeat split; try lia.
      * symmetry. exact Hsrv.
      * intros _ [b Hb]. congruence.
    + destruct (code =? 429)%Z eqn:Hcode.
      * apply Z.eqb_eq in Hcode. subst code.
        destruct (IH (S attempt)) as (k & Hk & Hres & Hbefore & Hlast).
        exists (S k). rewrite <- Nat.add_succ_comm. repeat split; try lia.
        -- exact Hres.
        -- intros [|j] Hj.
           ++ rewrite Nat.add_0_r, Hsrv. exists body. reflexivity.
           ++ rewrite <- Nat.add_succ_comm. apply Hbefore. lia.
        -- intros Hlt. apply Hlast. lia.
      * exists 0%nat. rewrite Nat.add_0_r. repeat split; try lia.
        -- symmetry. exact Hsrv.
        -- intros _ [b Hb]. rewrite Hsrv in Hb. injection Hb as Hb _.
           subst code. discriminate Hcode.
Qed.

(** The retry loop ends with the answer of one of the first three
    attempts: the first that is not a response with status 429 (an
    exception of [requests.post] included), or the third.  A fourth
    attempt is never made. *)
Theorem post_with_retries_answer (srv : server) :
  exists k : nat,
    (k < max_retries)%nat
    /\ post_with_retries srv 0 (max_retries - 1) = srv k
    /\ (forall j : nat, (j < k)%nat -> is_429 (srv j))
    /\ ((k < max_retries - 1)%nat -> ~ is_429 (srv k)).
Proof.
  destruct (post_with_retries_attempts srv (max_retries - 1) 0)
    as (k & Hk & Hres & Hbefore & Hlast).
  exists k. change (max_retries - 1)%nat with 2%nat in *. unfold max_retries.
  cbn [Nat.add] in *. repeat split; try lia; assumption.
Qed.

(** The counts of the summary.  The entries are as many as the
    generators; [success_count] and the failure entries add up to them, so
    ["failedCalculations"] is the number of failure entries, and
    ["allCalculationsSuccess"] holds exactly when no entry is a failure. *)
Theorem summary_counts (batch : list (generator * server)) :
  length (results (run batch)) = length batch
  /\ (success_count (run batch)
      + length (List.filter (fun r => negb (is_success r)) (results (run batch)))
      = length batch)%nat
  /\ failed_calculations batch
     = Z.of_nat (length (List.filter (fun r => negb (is_success r)) (results (run batch))))
  /\ (all_calculations_success batch = true
      <-> Forall (fun r => is_success r = true) (results (run batch))).
Proof.
  assert (Hcount : success_count (run batch)
                   = length (List.filter is_success (results (run batch)))).
  { unfold run. rewrite fold_process. reflexivity. }
  assert (Hlen : length (results (run batch)) = length batch).
  { rewrite run_results. apply length_map. }
  assert (Hsplit : forall rs : list result,
             (length (List.filter is_success rs)
              + length (List.filter (fun r => negb (is_success r)) rs)
              = length rs)%nat).
  { induction rs as [|r rs IH]; [reflexivity|].
    cbn. destruct (is_success r); cbn; lia. }
  assert (Hall : forall rs : list result,
             length (List.filter is_success rs) = length rs
             <-> Forall (fun r => is_success r = true) rs).
  { induction rs as [|r rs IH]; [split; [constructor | reflexivity]|].
    cbn. pose proof (List.filter_length_le is_success rs) as Hle.
    destruct (is_success r) eqn:Hr; cbn; split.
    - intros [= H]. constructor; [exact Hr | apply IH, H].
    - intros H. inversion H; subst. f_equal. apply IH. assumption.
    - intros H. lia.
    - intros H. inversion H; subst. congruence. }
  repeat match goal with |- _ /\ _ => split end.
  - exact Hlen.
  - rewrite Hcount, Hsplit. exact Hlen.
  - unfold failed_calculations. rewrite Hcount, <- Hlen.
    rewrite <- (Hsplit (results (run batch))). lia.
  - unfold all_calculations_success. rewrite Nat.eqb_eq, Hcount, <- Hlen. apply Hall.
Qed.

Lemma running_sum_app (a : pyfloat) (xs ys : list pyfloat) :
  running_sum a (xs ++ ys) = running_sum (running_sum a xs) ys.
Proof. unfold running_sum. apply fold_left_app. Qed.

Lemma fadd_zero_l (a : pyfloat) : feq (fadd (Fin 0) a) a.
Proof. destruct a; cbn; auto. ring. Qed.

Lemma running_sum_from (a : pyfloat) (xs : list pyfloat) :
  feq (running_sum a xs) (fadd a (running_sum (Fin 0) xs)).
Proof.
  revert a. induction xs as [|x xs IH]; intros a; cbn.
  - destruct a; cbn; auto. ring.
  - rewrite (IH (fadd a x)), (IH (fadd (Fin 0) x)).
    rewrite fadd_zero_l. apply fadd_assoc.
Qed.

(** [total_value] is the running sum, in the order of the batch, of the
    annual totals of all responses with status 200 from which the total
    could be read.  The prices of the success entries are among them, in
    the same order; what is there besides comes from responses that are
    counted and then refused. *)
Theorem total_value_is_sum_of_read_totals (batch : list (generator * server)) :
  total_value (run batch) = running_sum (Fin 0) (omap added batch)
  /\ sublist (successful_prices (results (run batch))) (omap added batch)
  /\ (Forall (fun item => counted_but_failed (snd item) = false) batch ->
      successful_prices (results (run batch)) = omap added batch).
Proof.
  rewrite run_results. split; [apply run_total_value|].
  unfold successful_prices. split.
  - induction batch as [|item batch IH]; [constructor|].
    change (sublist
              (match price_of (entry item) with
               | Some a => a :: omap price_of (List.map entry batch)
               | None => omap price_of (List.map entry batch)
               end)
              (match added item with
               | Some a => a :: omap added batch
               | None => omap added batch
               end)).
    unfold added at 1, entry at 1, price_of at 1.
    destruct (post_with_retries (snd item) 0 (max_retries - 1)) as [msg|code body];
      [exact IH|].
    destruct (code =? 200)%Z; [|exact IH].
    destruct (read_total body) as [[calc annual]|e]; [|exact IH].
    destruct (read_breakdown calc).
    + apply sublist_skip, IH.
    + apply sublist_cons, IH.
  - intros Hclean. induction Hclean as [|item batch Hitem _ IH]; [reflexivity|].
    change (match price_of (entry item) with
            | Some a => a :: omap price_of (List.map entry batch)
            | None => omap price_of (List.map entry batch)
            end
            = match added item with
              | Some a => a :: omap added batch
              | None => omap added batch
              end).
    rewrite <- (added_price item Hitem), IH. reflexivity.
Qed.

(** Two batches run one after the other give what the joined batch
    gives: the entries of the first followed by those of the second, the
    sum of the counts, and the sum of the totals. *)
Theorem run_app (batch1 batch2 : list (generator * server)) :
  results (run (batch1 ++ batch2)) = (results (run batch1) ++ results (run batch2))%list
  /\ success_count (run (batch1 ++ batch2))
     = (success_count (run batch1) + success_count (run batch2))%nat
  /\ feq (total_value (run (batch1 ++ batch2)))
         (fadd (total_value (run batch1)) (total_value (run batch2))).
Proof.
  repeat match goal with |- _ /\ _ => split end.
  - rewrite !run_results. apply List.map_app.
  - unfold run. rewrite !fold_process. cbn [success_count initial].
    rewrite List.map_app, List.filter_app, length_app. lia.
  - rewrite !run_total_value, omap_app, running_sum_app. apply running_sum_from.
Qed.

End Phase4More.

(** ** lnbl-per-unit-calculation.py: all or nothing *)

Section PerUnitMore.
Import LnblPerUnitCalculation.

Lemma visit_entry (item : generator * server) (o : option entry) :
  visit item = Ret o ->
  match o with
  | Some e => answered_200 item = true /\ entry_assetId e = assetId (fst item)
  | None => answered_200 item = false
  end.
Proof.
  destruct item as [gen srv]. unfold visit, answered_200. cbn [fst snd].
  destruct (srv 0%nat) as [msg|code body]; [discriminate|].
  destruct (code =? 200)%Z; [|intros [= <-]; reflexivity].
  destruct (response_json body) as [result|e]; [cbn|discriminate].
  destruct (json_subscript result "calculation") as [calc|e]; [cbn|discriminate].
  destruct (json_subscript calc "subtotal" ≫= float_of_json) as [unit_total|e];
    [cbn|discriminate].
  destruct (json_get calc "serviceBreakdown" (JObj ∅)) as [services|e]; [cbn|discriminate].
  destruct (service_cost services "A - Comprehensive Inspection"); [cbn|discriminate].
  destruct (service_cost services "B - Oil & Filter Service"); [cbn|discriminate].
  destruct (service_cost services "D - Oil & Fuel Analysis"); [cbn|discriminate].
  destruct (service_cost services "E - Load Bank Testing"); [cbn|discriminate].
  intros [= <-]. split; reflexivity.
Qed.

Lemma record_results (os : list (option entry)) (st : state) :
  results (fold_left record os st) = (results st ++ omap id os)%list.
Proof.
  revert st. induction os as [|o os IH]; intros st; cbn [fold_left].
  - symmetry. apply app_nil_r.
  - rewrite IH. destruct o as [e|]; cbn; [|reflexivity].
    rewrite <- app_assoc. reflexivity.
Qed.

Lemma record_total_of_results (os : list (option entry)) (st : state) :
  total_cost (fold_left record os st)
  = running_sum (total_cost st) (List.map totalAnnual (omap id os)).
Proof.
  revert st. induction os as [|o os IH]; intros st; cbn [fold_left]; [reflexivity|].
  rewrite IH. destruct o as [e|]; reflexivity.
Qed.

Lemma visits_asset_ids (batch : list (generator * server)) (os : list (option entry)) :
  mapM visit batch = Ret os ->
  List.map entry_assetId (omap id os)
  = List.map (fun item => assetId (fst item)) (List.filter answered_200 batch).
Proof.
  revert os. induction batch as [|item batch IH]; intros os Hos.
  - injection Hos as <-. reflexivity.
  - apply mapM_cons_Ret in Hos. destruct Hos as (o & os0 & Ho & Hos0 & ->).
    apply visit_entry in Ho. cbn [List.filter].
    destruct o as [e|].
    + destruct Ho as [-> Hid]. cbn. rewrite Hid. f_equal. apply IH, Hos0.
    + rewrite Ho. cbn. apply IH, Hos0.
Qed.

(** Where the script reaches its end, [total_cost] is the running sum of
    the [totalAnnual] of its entries, in their order, and the entries are
    those of the generators answered with status 200, in the order of the
    batch: a generator answered with another status leaves no entry. *)
Theorem per_unit_run_result (batch : list (generator * server)) (st : state) :
  run batch = Ret st ->
  total_cost st = running_sum (Fin 0) (List.map totalAnnual (results st))
  /\ List.map entry_assetId (results st)
     = List.map (fun item => assetId (fst item)) (List.filter answered_200 batch)
  /\ (length (results st) <= length batch)%nat.
Proof.
  unfold run. rewrite run_from_visits.
  destruct (mapM visit batch) as [os|e] eqn:Hos; [cbn|discriminate].
  intros [= <-].
  assert (Hids := visits_asset_ids batch os Hos).
  rewrite record_results, record_total_of_results. cbn [results total_cost initial app].
  split; [reflexivity|]. split; [exact Hids|].
  assert (Hlen := f_equal (@length string) Hids).
  rewrite !List.length_map in Hlen. cbn [app] in Hlen. rewrite Hlen.
  apply List.filter_length_le.
Qed.

Lemma process_returns_visit (st : state) (item : generator * server) :
  (exists st', process st item = Ret st') <-> (exists o, visit item = Ret o).
Proof.
  rewrite process_visit. destruct (visit item) as [o|e]; cbn; split.
  - intros _. exists o. reflexivity.
  - intros _. eexists. reflexivity.
  - intros [st' H]. discriminate H.
  - intros [o H]. discriminate H.
Qed.

Lemma mapM_returns_Forall {A B : Type} (f : A -> pyres B) (l : list A) :
  (exists ks, mapM f l = Ret ks) <-> Forall (fun x => exists k, f x = Ret k) l.
Proof.
  induction l as [|x l IH]; split.
  - intros _. constructor.
  - intros _. exists []. reflexivity.
  - intros [ks Hks]. apply mapM_cons_Ret in Hks.
    destruct Hks as (k & ks0 & Hk & Hl & _).
    constructor; [exists k; exact Hk | apply IH; exists ks0; exact Hl].
  - intros H. inversion H as [|? ? [k Hk] Hl]; subst.
    apply IH in Hl. destruct Hl as [ks Hks].
    exists (k :: ks). apply mapM_cons_intro; assumption.
Qed.

(** The script reaches its end exactly when the loop body raises for no
    generator.  Nothing is caught, so one request that raises, for any
    generator of the batch, ends the script without a total. *)
Theorem per_unit_run_all_or_nothing (batch : list (generator * server)) :
  ((exists st, run batch = Ret st)
   <-> Forall (fun item => exists st', process initial item = Ret st') batch)
  /\ (forall (item : generator * server) (msg : string),
         In item batch -> snd item 0%nat = PostRaises msg ->
         exists e, run batch = Raise e).
Proof.
  assert (Hiff : (exists st, run batch = Ret st)
                 <-> Forall (fun item => exists st', process initial item = Ret st') batch).
  { unfold run. rewrite run_from_visits.
    assert (Hequiv :
             Forall (fun item => exists st', process initial item = Ret st') batch
             <-> Forall (fun item => exists o, visit item = Ret o) batch)
      by (split; apply List.Forall_impl; intros item; apply process_returns_visit).
    rewrite Hequiv, <- mapM_returns_Forall.
    destruct (mapM visit batch) as [os|e]; cbn; split.
    - intros _. exists os. reflexivity.
    - intros _. eexists. reflexivity.
    - intros [st H]. discriminate H.
    - intros [os H]. discriminate H. }
  split; [exact Hiff|].
  intros item msg Hin Hraise.
  destruct (run batch) as [st|e] eqn:Hrun; [|exists e; reflexivity].
  exfalso.
  assert (Hall : Forall (fun item => exists st', process initial item = Ret st') batch)
    by (apply Hiff; exists st; reflexivity).
  rewrite List.Forall_forall in Hall. destruct (Hall item Hin) as [st' Hst'].
  destruct item as [gen srv]. cbn in Hraise. unfold process in Hst'.
  rewrite Hraise in Hst'. discriminate Hst'.
Qed.

(** A batch of two whose second request times out. *)
Lemma per_unit_run_all_or_nothing_witness :
  exists e,
    run [ ({| assetId := "02 EG 068"; manufacturer := "Cummins"; kwRating := 300 |},
           fun _ => Response 200 (Some (JObj {["calculation" :=
                      JObj {["subtotal" := JNum 12418.82]}]})));
          ({| assetId := "30 EG 114"; manufacturer := "Kohler"; kwRating := 350 |},
           fun _ => PostRaises "Read timed out") ]
    = Raise e.
Proof.
  eapply (proj2 (per_unit_run_all_or_nothing _)
            ({| assetId := "30 EG 114"; manufacturer := "Kohler"; kwRating := 350 |},
             fun _ => PostRaises "Read timed out")).
  - right. left. reflexivity.
  - reflexivity.
Defined.

Lemma per_unit_run_result_witness :
  match run per_unit_sample with
  | Ret st =>
      total_cost st = running_sum (Fin 0) (List.map totalAnnual (results st))
      /\ List.map entry_assetId (results st)
         = List.map (fun item => assetId (fst item))
             (List.filter answered_200 per_unit_sample)
      /\ (length (results st) <= length per_unit_sample)%nat
  | Raise _ => False
  end.
Proof.
  destruct (run per_unit_sample) as [st|e] eqn:Hrun.
  - exact (per_unit_run_result per_unit_sample st Hrun).
  - vm_compute in Hrun. discriminate Hrun.
Defined.

Example per_unit_sample_run :
  exists st, run per_unit_sample = Ret st
             /\ List.map entry_assetId (results st) = ["02 EG 068"]%list
             /\ feq (total_cost st) (Fin 12418.82).
Proof. eexists. split; [reflexivity|]. split; reflexivity. Qed.

End PerUnitMore.

(** ** generate-anr6-quotes.py: when the cleaning raises *)

Lemma float_of_str_raise (s : string) (e : exn) :
  float_of_str s = Raise e -> e = ValueError s.
Proof.
  unfold float_of_str. destruct (drop_underscores zero (strip s) ≫= parse_float).
  - discriminate.
  - intros [= <-]. reflexivity.
Qed.

(** [clean_kw_value] raises exactly when the text names a unit and the
    conversion of its branch fails, and what it raises is the ValueError
    of that conversion: for HP and MW the text without the unit, for KW
    the digits and dots of the text, unless there are none. *)
Theorem clean_kw_value_exception_iff (val : cell) (e : exn) :
  clean_kw_value val = Raise e
  <-> exists s arg : string,
        val = Val s /\ e = ValueError arg /\ float_of_str arg = Raise e
        /\ ((contains "HP" (upper (strip s)) = true
             /\ arg = strip (replace "HP" "" (upper (strip s))))
            \/ (contains "HP" (upper (strip s)) = false
                /\ contains "MW" (upper (strip s)) = true
                /\ arg = strip (replace "MW" "" (upper (strip s))))
            \/ (contains "HP" (upper (strip s)) = false
                /\ contains "MW" (upper (strip s)) = false
                /\ contains "KW" (upper (strip s)) = true
                /\ arg = keep_digits_and_dots (upper (strip s))
                /\ arg <> "")).
Proof.
  split.
  - destruct val as [|s]; [discriminate|]. intros H.
    pose proof (clean_kw_value_exception_source s e H) as Hsrc. cbn zeta in Hsrc.
    destruct Hsrc as [(Hhp & Hf)|[(Hhp & Hmw & Hf)|(Hhp & Hmw & Hkw & Hf)]];
      pose proof (float_of_str_raise _ _ Hf) as He.
    + eexists s, _. repeat split; [exact He | exact Hf | left; auto].
    + eexists s, _. repeat split; [exact He | exact Hf | right; left; auto].
    + eexists s, _. repeat split; [exact He | exact Hf |].
      right. right. repeat split; try assumption.
      intros Hempty. unfold clean_kw_value in H.
      rewrite Hhp, Hmw, Hkw, Hempty in H. discriminate H.
  - intros (s & arg & -> & _ & Hf & Hcase). unfold clean_kw_value.
    destruct Hcase as [(Hhp & ->)|[(Hhp & Hmw & ->)|(Hhp & Hmw & Hkw & -> & Hne)]].
    + rewrite Hhp. cbn. rewrite Hf. reflexivity.
    + rewrite Hhp, Hmw. cbn. rewrite Hf. reflexivity.
    + rewrite Hhp, Hmw, Hkw. cbn.
      destruct (String.eqb_spec (keep_digits_and_dots (upper (strip s))) "") as [E|_];
        [contradiction|exact Hf].
Qed.

Lemma mapM_Raise_iff {A B : Type} (f : A -> pyres B) (l : list A) (e : exn) :
  mapM f l = Raise e
  <-> exists (pre : list A) (x : A) (post : list A),
        l = (pre ++ x :: post)%list
        /\ Forall (fun y => exists k, f y = Ret k) pre
        /\ f x = Raise e.
Proof.
  induction l as [|x l IH].
  - split; [discriminate|]. intros (pre & y & post & H & _). destruct pre; discriminate H.
  - cbn [mapM]. destruct (f x) as [k|e'] eqn:Hx; cbn.
    + destruct (mapM f l) as [ks|e'] eqn:Hl; cbn.
      * split; [discriminate|].
        intros ([|y pre] & z & post & Heq & Hpre & Hz); injection Heq as -> ->.
        -- congruence.
        -- inversion Hpre; subst.
           assert (Hfalse : Ret ks = Raise e)
             by (apply IH; exists pre, z, post; auto).
           discriminate Hfalse.
      * split.
        -- intros [= ->]. destruct (proj1 IH eq_refl) as (pre & z & post & -> & Hpre & Hz).
           exists (x :: pre), z, post. repeat split; [|exact Hz].
           constructor; [exists k; exact Hx | exact Hpre].
        -- intros ([|y pre] & z & post & Heq & Hpre & Hz); injection Heq as -> ->.
           ++ congruence.
           ++ inversion Hpre; subst. f_equal.
              assert (Hr : Raise e' = Raise e)
                by (apply IH; exists pre, z, post; auto).
              congruence.
    + split.
      * intros [= ->]. exists [], x, l. repeat split; [constructor | exact Hx].
      * intros ([|y pre] & z & post & Heq & Hpre & Hz); injection Heq as -> ->.
        -- congruence.
        -- inversion Hpre as [|? ? [k Hk] ?]; subst. congruence.
Qed.

(** The column is cleaned as a whole: [kw_ranges] raises exactly the
    exception of the first cell whose cleaning raises, and then no
    generator of the list gets a range. *)
Theorem kw_ranges_raises_iff (column : list cell) (e : exn) :
  kw_ranges column = Raise e
  <-> exists (pre : list cell) (bad : cell) (post : list cell),
        column = (pre ++ bad :: post)%list
        /\ Forall (fun c => exists kw, clean_kw_value c = Ret kw) pre
        /\ clean_kw_value bad = Raise e.
Proof.
  rewrite <- mapM_Raise_iff. unfold kw_ranges.
  destruct (mapM clean_kw_value column) as [kws|e']; cbn; split; intros H;
    solve [discriminate H | injection H as ->; reflexivity].
Qed.

Example kw_ranges_one_bad_cell :
  kw_ranges [Val "300"; Val "N/A HP"; Val "20"] = Raise (ValueError "N/A").
Proof. reflexivity. Qed.

(** ** Text made of digits: what the string functions do with it *)

Section PlainText.
Variable P : ascii -> bool.








End PlainText.







(** ** [str(n)] of an int is read back as [n] *)

Lemma pretty_N_char_digit (r : N) :
  (r < 10)%N ->
  is_digit (pretty_N_char r) = true /\ Z.of_N (code (pretty_N_char r) - 48) = Z.of_N r.
Proof.
  intros Hr.
  assert (H : (r = 0 \/ r = 1 \/ r = 2 \/ r = 3 \/ r = 4 \/ r = 5 \/ r = 6 \/ r = 7
               \/ r = 8 \/ r = 9)%N) by lia.
  repeat (destruct H as [->|H]; [split; reflexivity|]). subst r. split; reflexivity.
Qed.

Lemma pretty_N_go_digits (x : N) :
  forall s, string_forall is_digit s = true ->
            string_forall is_digit (pretty_N_go x s) = true.
Proof.
  induction (N.lt_wf_0 x) as [x _ IH]. intros s Hs.
  destruct (N.eq_dec x 0%N) as [->|Hx]; [rewrite pretty_N_go_0; exact Hs|].
  rewrite pretty_N_go_step by lia. apply IH.
  - apply N.div_lt; lia.
  - cbn. rewrite Hs.
    destruct (pretty_N_char_digit (x mod 10)) as [-> _]; [|reflexivity].
    apply N.mod_lt. lia.
Qed.

Lemma take_digits_pretty_N_go (x : N) :
  forall (s : string) (acc : Z) (k : nat),
  exists d : nat,
    take_digits acc k (pretty_N_go x s)
    = take_digits (acc * 10 ^ Z.of_nat d + Z.of_N x)%Z (k + d) s
    /\ ((0 < x)%N -> (0 < d)%nat).
Proof.
  induction (N.lt_wf_0 x) as [x _ IH]. intros s acc k.
  destruct (N.eq_dec x 0%N) as [->|Hx].
  - exists 0%nat. rewrite pretty_N_go_0. split; [|lia].
    f_equal; [f_equal; cbn; lia | lia].
  - rewrite pretty_N_go_step by lia.
    destruct (IH (x / 10)%N ltac:(apply N.div_lt; lia)
                (String (pretty_N_char (x mod 10)) s) acc k) as (d & Hd & _).
    exists (S d). split; [|lia]. rewrite Hd. cbn [take_digits].
    destruct (pretty_N_char_digit (x mod 10)) as [Hdig Hval]; [apply N.mod_lt; lia|].
    rewrite Hdig, Hval. f_equal; [|lia].
    rewrite Nat2Z.inj_succ, Z.pow_succ_r by lia.
    rewrite N2Z.inj_div, N2Z.inj_mod.
    pose proof (Z.div_mod (Z.of_N x) 10 ltac:(lia)) as Hdm.
    change (Z.of_N 10) with 10%Z. lia.
Qed.

(** The decimal text of a positive number: digits, at least one, whose
    value is the number. *)
Lemma pretty_positive_digits (p : positive) :
  string_forall is_digit (pretty p) = true
  /\ exists d : nat, take_digits 0 0 (pretty p) = (Z.pos p, S d, "").
Proof.
  unfold pretty, pretty_positive, pretty, pretty_N.
  destruct (decide (N.pos p = 0%N)) as [E|_]; [discriminate E|].
  split; [apply pretty_N_go_digits; reflexivity|].
  destruct (take_digits_pretty_N_go (N.pos p) "" 0 0) as (d & Hd & Hpos).
  destruct d as [|d]; [exfalso; assert (0 < 0)%nat by (apply Hpos; lia); lia|].
  exists d. rewrite Hd. cbn [take_digits Nat.add].
  replace (0 * 10 ^ Z.of_nat (S d) + Z.of_N (N.pos p))%Z with (Z.pos p) by (cbn; lia).
  reflexivity.
Qed.









Example kw_ranges_int_column_sample :
  kw_ranges (List.map (fun z => Val (pretty z)) [300; 0; -5; 20; 2000]%Z)
  = Ret [(Fin 300, "251-400"); (Fin 20, "15-30"); (Fin 2000, "1501+")].
Proof. reflexivity. Qed.

(** ** The KW branch drops the sign *)











(** ** The labels of the lookup tables are read back *)

Lemma prefix_kw_app (s : string) :
  String.prefix " kW" s = false -> s <> "" -> String.prefix " kW" (s +:+ " kW") = false.
Proof.
  destruct s as [|c s]; [congruence|]. intros H _.
  change (String c s +:+ " kW") with (String c (s +:+ " kW")).
  rewrite prefix_cons in *.
  destruct (Ascii.eqb " " c); [cbn [andb] in *|reflexivity].
  destruct s as [|c1 s]; [reflexivity|].
  change (String c1 s +:+ " kW") with (String c1 (s +:+ " kW")).
  rewrite prefix_cons in *.
  destruct (Ascii.eqb "k" c1); [cbn [andb] in *|reflexivity].
  destruct s as [|c2 s]; [reflexivity|].
  change (String c2 s +:+ " kW") with (String c2 (s +:+ " kW")).
  rewrite prefix_cons in *.
  destruct (Ascii.eqb "W" c2); [destruct s; cbn in H; discriminate H | reflexivity].
Qed.

Lemma replace_kw_app (s : string) :
  contains " kW" s = false -> replace " kW" "" (s +:+ " kW") = s.
Proof.
  unfold replace. induction s as [|c s IH]; [reflexivity|].
  cbn [contains]. intros H. apply orb_false_iff in H. destruct H as [Hp Hc].
  change (String c s +:+ " kW") with (String c (s +:+ " kW")).
  cbn [replace_from].
  change (String c (s +:+ " kW")) with (String c s +:+ " kW").
  rewrite (prefix_kw_app (String c s) Hp) by discriminate.
  rewrite (IH Hc). reflexivity.
Qed.

(** The range a data row is labelled with is the range
    add-formulas-to-lookup-tables.py reads back from the label, provided
    the range does not itself hold " kW" and has no white space around
    it; so the row is found again under its key. *)
Theorem label_round_trip (kw_range : string) :
  contains " kW" kw_range = false ->
  strip kw_range = kw_range ->
  label_kw_range (table_label kw_range) = kw_range.
Proof.
  intros Hc Hs. unfold label_kw_range, table_label.
  rewrite (replace_kw_app kw_range Hc). exact Hs.
Qed.

Lemma label_round_trip_witness :
  label_kw_range (table_label "251-400") = "251-400".
Proof. apply label_round_trip; reflexivity. Defined.

(** Without the provisos the range is not read back. *)
Example label_round_trip_fails :
  label_kw_range (table_label " 15-30") = "15-30"
  /\ label_kw_range (table_label "15 kW-30") = "15-30".
Proof. split; reflexivity. Qed.

(** ** fetch_calculator_settings.py: the getters beside the table builder *)

Section GettersMore.
Import RebuildLookupTables FetchCalculatorSettings.

(** Where rebuild-lookup-tables-with-settings.py can extract its pricing,
    the getters return the same values for the same fields, and no
    default comes into play: the two read the settings alike. *)
Theorem getters_agree_with_extract_pricing
    (settings : gmap string setting) (p : pricing) :
  extract_pricing settings = Ret p ->
  get_labor_rates settings !! "labor" = Some (LABOR_RATE p)
  /\ get_labor_rates settings !! "mobilization" = Some (MOBILIZATION_RATE p)
  /\ get_oil_pricing settings !! "price" = Some (OIL_BASE p)
  /\ get_oil_pricing settings !! "markup" = Some (OIL_MARKUP p)
  /\ get_coolant_pricing settings !! "price" = Some (COOLANT_BASE p)
  /\ get_coolant_pricing settings !! "markup" = Some (COOLANT_MARKUP p)
  /\ get_markup_rates settings !! "parts" = Some (PARTS_MARKUP p)
  /\ py_mul (OIL_BASE p) (OIL_MARKUP p) = Ret (OIL_PRICE p)
  /\ py_mul (COOLANT_BASE p) (COOLANT_MARKUP p) = Ret (COOLANT_PRICE p).
Proof.
  intros H. apply extract_pricing_returned in H.
  destruct H as (lr & mr & pm & ob & om & cb & cm
                 & H1 & H2 & H3 & H4 & H5 & H6 & H7 & ->).
  unfold get_labor_rates, get_oil_pricing, get_coolant_pricing, get_markup_rates, dict_get.
  rewrite H1, H2, H3, H4, H5, H6, H7. cbn.
  repeat split.
Qed.

Lemma getters_agree_with_extract_pricing_witness :
  get_labor_rates scenario_settings !! "labor" = Some (Num 180)
  /\ get_oil_pricing scenario_settings !! "markup" = Some (Num 1.5).
Proof.
  destruct (getters_agree_with_extract_pricing scenario_settings
              {| LABOR_RATE := Num 180; MOBILIZATION_RATE := Num 180;
                 OIL_BASE := Num 16; OIL_MARKUP := Num 1.5;
                 OIL_PRICE := Num (16 * 1.5);
                 COOLANT_BASE := Num 16; COOLANT_MARKUP := Num 1.5;
                 COOLANT_PRICE := Num (16 * 1.5); PARTS_MARKUP := Num 1.25 |}
              eq_refl) as (Hl & _ & _ & Hm & _).
  split; [exact Hl | exact Hm].
Defined.



End GettersMore.

(** ** phase4-complete-remaining.py: the second run and the merge *)

Section CompleteRemaining.
Import Phase4CalculatePricing Phase4CompleteRemaining.

Lemma post_with_retries_settled (r : post_result) (attempt retries_left : nat) :
  post_with_retries (fun _ => r) attempt retries_left = r.
Proof.
  revert attempt. induction retries_left as [|n IH]; intros attempt; cbn.
  - destruct r; reflexivity.
  - destruct r as [msg|code body]; [reflexivity|].
    destruct (code =? 429)%Z; [apply IH | reflexivity].
Qed.

Lemma process_settled (st : state) (item : generator * server) :
  Phase4CompleteRemaining.process st item
  = Phase4CalculatePricing.process st (settled item).
Proof.
  destruct item as [gen srv].
  unfold Phase4CompleteRemaining.process, Phase4CalculatePricing.process, settled.
  cbn [fst snd]. rewrite post_with_retries_settled. reflexivity.
Qed.

Lemma run_settled (failed : list (generator * server)) :
  Phase4CompleteRemaining.run failed
  = Phase4CalculatePricing.run (List.map settled failed).
Proof.
  unfold Phase4CompleteRemaining.run, Phase4CalculatePricing.run.
  generalize initial. induction failed as [|item failed IH]; intros st; [reflexivity|].
  cbn [fold_left List.map]. rewrite process_settled. apply IH.
Qed.

Lemma success_is_success (r : result) : success r = is_success r.
Proof. destruct r; reflexivity. Qed.

Lemma merge_failed (all_generators : list (generator * server))
    (entries : list result) :
  forall (i : nat) (failed : list (generator * server)) (before : list result),
    failed_generators_from all_generators i entries = Some failed ->
    exists merged,
      merge_from (before ++ List.map (fun item => entry (settled item)) failed)
        (length before) entries = Some merged
      /\ length merged = length entries
      /\ (forall j r, entries !! j = Some r ->
                      merged !! j = merged_entry all_generators (i + j) r).
Proof.
  induction entries as [|r entries IH]; intros i failed before Hfailed.
  - exists []. repeat split. intros j r' Hj. discriminate Hj.
  - cbn [failed_generators_from merge_from] in *.
    destruct (success r) eqn:Hr.
    + destruct (IH (S i) failed before Hfailed) as (merged & Hm & Hlen & Hat).
      rewrite Hm. cbn. eexists. split; [reflexivity|]. split; [cbn; lia|].
      intros [|j] r' Hj.
      * injection Hj as <-. rewrite Nat.add_0_r. unfold merged_entry. rewrite Hr.
        reflexivity.
      * cbn. rewrite <- Nat.add_succ_comm. apply Hat, Hj.
    + destruct (all_generators !! i) as [gen|] eqn:Hgen; [cbn in Hfailed|discriminate].
      destruct (failed_generators_from all_generators (S i) entries) as [rest|] eqn:Hrest;
        [cbn in Hfailed|discriminate].
      injection Hfailed as <-.
      destruct (IH (S i) rest (before ++ [entry (settled gen)])%list Hrest)
        as (merged & Hm & Hlen & Hat).
      rewrite length_app, Nat.add_1_r, <- app_assoc in Hm. cbn [app] in Hm.
      cbn [List.map].
      rewrite (list_lookup_middle before _ (entry (settled gen)) (length before) eq_refl).
      cbn. rewrite Hm. cbn.
      eexists. split; [reflexivity|]. split; [cbn; lia|].
      intros [|j] r' Hj.
      * injection Hj as <-. rewrite Nat.add_0_r. unfold merged_entry.
        rewrite Hr, Hgen. reflexivity.
      * cbn. rewrite <- Nat.add_succ_comm. apply Hat, Hj.
Qed.

(** The script comes through exactly when every entry without success
    has its index inside [all_generators]: the merge itself never runs out
    of new results.  Then the merged list is as long as the old one, keeps
    every entry with success in its place, and has, in the place of an
    entry without success, the entry of the new calculation of the
    generator at that index. *)
Theorem complete_merges (existing : existing_results)
    (all_generators : list (generator * server)) :
  ((exists f, complete existing all_generators = Some f)
   <-> (forall i r, generators existing !! i = Some r -> success r = false ->
                    (i < length all_generators)%nat))
  /\ (forall f, complete existing all_generators = Some f ->
        length (merged_generators f) = length (generators existing)
        /\ (forall i r, generators existing !! i = Some r ->
                        merged_generators f !! i = merged_entry all_generators i r)).
Proof.
  assert (Hfailed : forall entries i,
             (exists failed, failed_generators_from all_generators i entries = Some failed)
             <-> (forall j r, entries !! j = Some r -> success r = false ->
                              (i + j < length all_generators)%nat)).
  { induction entries as [|r entries IH]; intros i.
    - split; [intros _ j r Hj; discriminate Hj | intros _; exists []; reflexivity].
    - cbn [failed_generators_from]. split.
      + intros [failed Hf] [|j] r' Hj Hr'.
        * injection Hj as <-. rewrite Hr' in Hf. rewrite Nat.add_0_r.
          apply lookup_lt_is_Some. destruct (all_generators !! i); [eauto|discriminate].
        * rewrite <- Nat.add_succ_comm. apply (proj1 (IH (S i))) with (r := r'); auto.
          destruct (success r); [exists failed; exact Hf|].
          destruct (all_generators !! i); [cbn in Hf|discriminate].
          destruct (failed_generators_from all_generators (S i) entries) as [rest|];
            [exists rest; reflexivity|discriminate].
      + intros H.
        assert (Hrest : exists rest,
                   failed_generators_from all_generators (S i) entries = Some rest).
        { apply IH. intros j r' Hj Hr'. rewrite Nat.add_succ_comm.
          apply (H (S j) r'); assumption. }
        destruct Hrest as [rest Hrest]. rewrite Hrest.
        destruct (success r) eqn:Hr; [exists rest; reflexivity|].
        assert (Hi : (i + 0 < length all_generators)%nat) by (apply (H 0%nat r); auto).
        rewrite Nat.add_0_r in Hi. apply lookup_lt_is_Some in Hi. destruct Hi as [gen Hgen].
        rewrite Hgen. cbn. eexists. reflexivity. }
  assert (Hcomplete : forall failed,
             failed_generators existing all_generators = Some failed ->
             exists merged,
               merge_from (results (Phase4CompleteRemaining.run failed)) 0
                 (generators existing) = Some merged
               /\ length merged = length (generators existing)
               /\ (forall i r, generators existing !! i = Some r ->
                               merged !! i = merged_entry all_generators i r)).
  { intros failed Hf. rewrite run_settled, run_results, List.map_map.
    apply (merge_failed all_generators (generators existing) 0 failed [] Hf). }
  split.
  - rewrite <- (Hfailed (generators existing) 0%nat). unfold complete.
    fold (failed_generators existing all_generators).
    destruct (failed_generators existing all_generators) as [failed|] eqn:Hf; cbn.
    + destruct (Hcomplete failed eq_refl) as (merged & -> & _). cbn.
      split; intros _; eexists; reflexivity.
    + split; intros [x Hx]; discriminate Hx.
  - intros f. unfold complete.
    destruct (failed_generators existing all_generators) as [failed|] eqn:Hf; cbn;
      [|discriminate].
    destruct (Hcomplete failed eq_refl) as (merged & -> & Hlen & Hat). cbn.
    intros [= <-]. cbn. split; assumption.
Qed.

End CompleteRemaining.

Section CompleteRemainingCounts.
Import Phase4CalculatePricing Phase4CompleteRemaining.

Lemma complete_merges_witness :
  match complete first_run second_try with
  | Some f =>
      length (merged_generators f) = length (generators first_run)
      /\ (forall i r, generators first_run !! i = Some r ->
                      merged_generators f !! i = merged_entry second_try i r)
  | None => False
  end.
Proof.
  destruct (complete first_run second_try) as [f|] eqn:Hf.
  - exact (proj2 (complete_merges first_run second_try) f Hf).
  - vm_compute in Hf. discriminate Hf.
Defined.

Example second_try_completes :
  exists f, complete first_run second_try = Some f
            /\ List.map result_unit (merged_generators f) = ["G-01"; "G-02"; "G-03"]%list
            /\ List.map success (merged_generators f) = [true; true; true]
            /\ final_success_count f = 3%Z
            /\ final_failed_count f = 0%Z
            /\ feq (final_total f) (Fin 3946).
Proof. eexists. split; [vm_compute; reflexivity|]. vm_compute. repeat split. Qed.

Lemma merge_counts (all_generators : list (generator * server))
    (entries : list result) :
  forall (i : nat) (failed : list (generator * server)) (before merged : list result),
    failed_generators_from all_generators i entries = Some failed ->
    merge_from (before ++ List.map (fun item => entry (settled item)) failed)
      (length before) entries = Some merged ->
    length (List.filter success merged)
    = (length (List.filter success entries)
       + length (List.filter success
                   (List.map (fun item => entry (settled item)) failed)))%nat.
Proof.
  induction entries as [|r entries IH]; intros i failed before merged Hfailed Hm.
  - injection Hfailed as <-. injection Hm as <-. reflexivity.
  - cbn [failed_generators_from merge_from] in *.
    destruct (success r) eqn:Hr.
    + destruct (merge_from _ (length before) entries) as [m|] eqn:Hm'; [|discriminate].
      injection Hm as <-. cbn [List.filter]. rewrite Hr. cbn [length].
      rewrite (IH (S i) failed before m Hfailed Hm'). reflexivity.
    + destruct (all_generators !! i) as [gen|]; [cbn in Hfailed|discriminate].
      destruct (failed_generators_from all_generators (S i) entries) as [rest|] eqn:Hrest;
        [cbn in Hfailed|discriminate].
      injection Hfailed as <-. cbn [List.map] in *.
      rewrite (list_lookup_middle before _ (entry (settled gen)) (length before) eq_refl)
        in Hm. cbn in Hm.
      destruct (merge_from _ (S (length before)) entries) as [m|] eqn:Hm'; [|discriminate].
      injection Hm as <-.
      assert (Hm'' : merge_from
                       ((before ++ [entry (settled gen)])
                        ++ List.map (fun item => entry (settled item)) rest)
                       (length (before ++ [entry (settled gen)])) entries = Some m).
      { rewrite length_app, Nat.add_1_r, <- app_assoc. exact Hm'. }
      pose proof (IH (S i) rest _ m Hrest Hm'') as Hcount.
      cbn [List.filter]. rewrite Hr.
      destruct (success (entry (settled gen))); cbn [length]; lia.
Qed.

(** The counts after the second run.  If the summary read in counted the
    entries with success, [final_success_count] counts those of the
    merged list; if moreover there are as many generators as entries,
    [final_failed_count] counts the merged entries without success. *)
Theorem complete_counts (existing : existing_results)
    (all_generators : list (generator * server)) (f : final) :
  complete existing all_generators = Some f ->
  successfulCalculations existing
  = Z.of_nat (length (List.filter success (generators existing))) ->
  final_success_count f = Z.of_nat (length (List.filter success (merged_generators f)))
  /\ (length all_generators = length (generators existing) ->
      final_failed_count f
      = Z.of_nat (length (List.filter (fun r => negb (success r)) (merged_generators f)))).
Proof.
  unfold complete.
  destruct (failed_generators existing all_generators) as [failed|] eqn:Hfailed; cbn;
    [|discriminate].
  destruct (merge_from (results (Phase4CompleteRemaining.run failed)) 0
              (generators existing)) as [merged|] eqn:Hm; cbn; [|discriminate].
  intros [= <-] Hsummary. cbn.
  rewrite run_settled in *. rewrite run_results, List.map_map in Hm.
  assert (Hlen : length merged = length (generators existing)).
  { destruct (merge_failed all_generators (generators existing) 0 failed [] Hfailed)
      as (merged' & Hm' & Hlen' & _).
    cbn [app length] in Hm'. rewrite Hm in Hm'. injection Hm' as <-. exact Hlen'. }
  assert (Hcount : length (List.filter success merged)
                   = (length (List.filter success (generators existing))
                      + success_count
                          (Phase4CalculatePricing.run (List.map settled failed)))%nat).
  { rewrite (merge_counts all_generators (generators existing) 0 failed [] merged
               Hfailed Hm).
    f_equal. unfold Phase4CalculatePricing.run.
    rewrite fold_process. cbn [success_count initial]. rewrite List.map_map.
    clear. induction failed as [|item failed IH]; [reflexivity|].
    cbn [List.map List.filter]. rewrite success_is_success.
    destruct (is_success (entry (settled item))); cbn [length]; rewrite IH; reflexivity. }
  assert (Hsplit : forall rs : list result,
             (length (List.filter success rs)
              + length (List.filter (fun r => negb (success r)) rs) = length rs)%nat).
  { induction rs as [|r rs IH]; [reflexivity|].
    cbn. destruct (success r); cbn; lia. }
  split.
  - rewrite Hsummary, Hcount. lia.
  - intros Hall. pose proof (Hsplit merged). rewrite Hsummary. lia.
Qed.

Lemma complete_counts_witness :
  match complete first_run second_try with
  | Some f =>
      final_success_count f
      = Z.of_nat (length (List.filter success (merged_generators f)))
  | None => False
  end.
Proof.
  destruct (complete first_run second_try) as [f|] eqn:Hf.
  - apply (complete_counts first_run second_try f Hf). reflexivity.
  - vm_compute in Hf. discriminate Hf.
Defined.

(** With no entry left without success the second run changes nothing:
    no request is made, the entries and the counts stay, and the total
    stays the same number. *)
Theorem complete_nothing_to_do (existing : existing_results)
    (all_generators : list (generator * server)) :
  Forall (fun r => success r = true) (generators existing) ->
  exists f,
    complete existing all_generators = Some f
    /\ merged_generators f = generators existing
    /\ final_success_count f = successfulCalculations existing
    /\ feq (final_total f) (annualTotal existing).
Proof.
  intros Hall.
  assert (Hfailed : forall i,
             failed_generators_from all_generators i (generators existing) = Some []).
  { induction Hall as [|r rs Hr _ IH]; intros i; [reflexivity|].
    cbn. rewrite Hr. apply IH. }
  assert (Hmerge : forall news idx,
             merge_from news idx (generators existing) = Some (generators existing)).
  { clear Hfailed. induction Hall as [|r rs Hr _ IH]; intros news idx; [reflexivity|].
    cbn. rewrite Hr, IH. reflexivity. }
  unfold complete, failed_generators. rewrite Hfailed. cbn.
  rewrite Hmerge. cbn. eexists. split; [reflexivity|]. cbn.
  split; [reflexivity|]. split; [lia|].
  destruct (annualTotal existing); cbn; auto. ring.
Qed.

Lemma complete_nothing_to_do_witness :
  exists f,
    complete all_done second_try = Some f
    /\ merged_generators f = generators all_done
    /\ final_success_count f = successfulCalculations all_done
    /\ feq (final_total f) (annualTotal all_done).
Proof.
  apply (complete_nothing_to_do all_done second_try).
  repeat constructor.
Defined.

End CompleteRemainingCounts.

(** ** Cells that name a unit *)

Section DigitsThen.
Variable d : string.
Hypothesis Hd : string_forall is_digit d = true.









End DigitsThen.



Example clean_kw_value_units_sample :
  clean_kw_value (Val "2 MW") = Ret (Fin 2000)
  /\ clean_kw_value (Val "100 HP") = Ret (Fin (746 # 10)).
Proof. split; reflexivity. Qed.

(** ** phase4-finalize.py *)

Section Finalize.
Import Phase4CalculatePricing Phase4Finalize.

Lemma fadd_exchange (a b c : pyfloat) : feq (fadd (fadd a b) c) (fadd (fadd c b) a).
Proof. destruct a, b, c; cbn; auto. ring. Qed.

Lemma annual_total_success (unit : string) (kw : Q) (maker : string) (price : pyfloat)
    (b : breakdown) (calc : json) (rest : list result) :
  feq (annual_total (Success unit kw maker price b calc :: rest))
      (fadd price (annual_total rest)).
Proof.
  unfold annual_total, successful_prices.
  change (omap price_of (Success unit kw maker price b calc :: rest))
    with (price :: omap price_of rest).
  change (running_sum (Fin 0) (price :: omap price_of rest))
    with (running_sum (fadd (Fin 0) price) (omap price_of rest)).
  rewrite running_sum_from, fadd_zero_l. reflexivity.
Qed.

Lemma replace_failed_length (generators : list result) :
  length (replace_failed generators) = length generators.
Proof.
  induction generators as [|gen rest IH]; [reflexivity|].
  cbn. destruct (String.eqb _ _); cbn; [reflexivity | f_equal; exact IH].
Qed.

(** The entry of the unit is replaced where it first occurs, whether it
    had failed or not, and nothing else changes: entries of the same unit
    further on stay as they are. *)
Theorem replace_failed_first (pre post : list result) (gen : result) :
  Forall (fun g => result_unit g <> "76 CM 186") pre ->
  result_unit gen = "76 CM 186" ->
  replace_failed (pre ++ gen :: post)%list = (pre ++ eight_kw_result :: post)%list.
Proof.
  intros Hpre Hgen. induction Hpre as [|g pre Hg _ IH]; cbn.
  - rewrite Hgen. reflexivity.
  - destruct (String.eqb_spec (result_unit g) "76 CM 186") as [E|_]; [contradiction|].
    f_equal. exact IH.
Qed.

Lemma replace_failed_first_witness :
  replace_failed (results_before ++ results_after)%list
  = ([Success "02 EG 068" 300 "Cummins" (Fin 14250) no_breakdown JNull]
     ++ eight_kw_result :: results_after)%list.
Proof.
  apply (replace_failed_first
           [Success "02 EG 068" 300 "Cummins" (Fin 14250) no_breakdown JNull]
           results_after (Failure "76 CM 186" 8 "HTTP 400")).
  - repeat constructor. cbn. discriminate.
  - reflexivity.
Defined.

(** What the script does to the summary.  The number of entries stays.
    Without an entry of the unit nothing changes.  If the first entry of
    the unit had failed, one more calculation counts as successful and
    the annual total grows by 11581.60.  If it had succeeded it is
    overwritten all the same: the count stays and 11581.60 takes the
    place of its price in the total. *)
Theorem finalize_summary (generators : list result) :
  totalGenerators (snd (finalize generators)) = length generators
  /\ match first_of_unit generators with
     | None => fst (finalize generators) = generators
     | Some (Failure _ _ _) =>
         successfulCalculations (snd (finalize generators)) = S (successful generators)
         /\ feq (annualTotal (snd (finalize generators)))
                (fadd (annual_total generators) (Fin 11581.60))
     | Some (Success _ _ _ price _ _) =>
         successfulCalculations (snd (finalize generators)) = successful generators
         /\ feq (fadd (annualTotal (snd (finalize generators))) price)
                (fadd (annual_total generators) (Fin 11581.60))
     end.
Proof.
  unfold finalize. cbn [fst snd totalGenerators successfulCalculations annualTotal].
  split; [apply replace_failed_length|].
  unfold first_of_unit.
  induction generators as [|gen rest IH]; [reflexivity|].
  cbn [List.find replace_failed].
  destruct (String.eqb (result_unit gen) "76 CM 186") eqn:E.
  - destruct gen as [u kw mk price b calc | u kw err].
    + split; [reflexivity|].
      unfold eight_kw_result. rewrite !annual_total_success.
      apply fadd_exchange.
    + split; [reflexivity|].
      unfold eight_kw_result. rewrite annual_total_success.
      apply fadd_comm.
  - destruct (List.find _ rest) as [[u kw mk price b calc | u kw err]|].
    + destruct IH as [IHn IHt]. split.
      * unfold successful in *. cbn. destruct (is_success gen); cbn; congruence.
      * destruct gen as [u' kw' mk' price' b' calc' | u' kw' err'].
        -- rewrite !annual_total_success, fadd_assoc, IHt, <- fadd_assoc. reflexivity.
        -- exact IHt.
    + destruct IH as [IHn IHt]. split.
      * unfold successful in *. cbn. destruct (is_success gen); cbn; congruence.
      * destruct gen as [u' kw' mk' price' b' calc' | u' kw' err'].
        -- rewrite !annual_total_success, IHt, <- fadd_assoc. reflexivity.
        -- exact IHt.
    + f_equal. exact IH.
Qed.

Example finalize_sample :
  snd (finalize (results_before ++ results_after)%list)
  = {| totalGenerators := 4; successfulCalculations := 3; failedCalculations := 1;
       annualTotal := Fin 40931.60; allCalculationsSuccess := false |}.
Proof. reflexivity. Qed.

End Finalize.

(** ** generate-anr6-quotes.py: the files of the payloads *)

Lemma append_length (s t : string) :
  String.length (s +:+ t) = (String.length s + String.length t)%nat.
Proof.
  induction s as [|c s IH]; [reflexivity|].
  change (String c s +:+ t) with (String c (s +:+ t)). cbn. rewrite IH. reflexivity.
Qed.

Lemma append_inj_r (t s1 s2 : string) : s1 +:+ t = s2 +:+ t -> s1 = s2.
Proof.
  revert s2. induction s1 as [|c s1 IH]; intros [|c2 s2] H.
  - reflexivity.
  - apply (f_equal String.length) in H. rewrite !append_length in H. cbn in H. lia.
  - apply (f_equal String.length) in H. rewrite !append_length in H. cbn in H. lia.
  - change (String c (s1 +:+ t) = String c2 (s2 +:+ t)) in H.
    injection H as -> H. f_equal. apply IH, H.
Qed.

Lemma append_inj_l (t s1 s2 : string) : t +:+ s1 = t +:+ s2 -> s1 = s2.
Proof.
  induction t as [|c t IH]; [auto|].
  change (String c (t +:+ s1) = String c (t +:+ s2) -> s1 = s2).
  intros [= H]. exact (IH H).
Qed.

(** The text of a number from ten on does not begin with a zero before
    one more digit. *)
Lemma pretty_not_padded (a b : N) :
  (a < 10)%N -> (10 <= b)%N -> "0" +:+ pretty a <> pretty b.
Proof.
  intros Ha Hb E.
  destruct b as [|p]; [lia|].
  destruct (pretty_positive_digits p) as [_ [d Hd]].
  change (pretty p) with (pretty (N.pos p)) in Hd. rewrite <- E in Hd.
  assert (Hcases : (a = 0 \/ a = 1 \/ a = 2 \/ a = 3 \/ a = 4 \/ a = 5 \/ a = 6
                    \/ a = 7 \/ a = 8 \/ a = 9)%N) by lia.
  repeat (destruct Hcases as [->|Hcases]; [vm_compute in Hd; injection Hd as Hp _; lia|]).
  subst a. vm_compute in Hd. injection Hd as Hp _. lia.
Qed.

Lemma format_02d_inj (a b : N) : format_02d a = format_02d b -> a = b.
Proof.
  unfold format_02d.
  destruct (N.ltb_spec a 10), (N.ltb_spec b 10); intros E.
  - apply (append_inj_l "0") in E. apply (inj pretty), E.
  - exfalso. exact (pretty_not_padded a b ltac:(assumption) ltac:(assumption) E).
  - exfalso. symmetry in E.
    exact (pretty_not_padded b a ltac:(assumption) ltac:(assumption) E).
  - apply (inj pretty), E.
Qed.

(** No payload is written over another: the file names of the
    generators are pairwise different, however many there are, and so are
    the quote numbers. *)
Theorem quote_files_distinct (n : nat) :
  NoDup (saved_files n)
  /\ length (saved_files n) = n
  /\ forall i j : N, quote_number i = quote_number j -> i = j.
Proof.
  split; [|split].
  - unfold saved_files. apply NoDup_fmap_2_strong; [|apply NoDup_seq].
    intros i j _ _ E. unfold quote_file in E.
    apply append_inj_l, append_inj_r, format_02d_inj in E. lia.
  - unfold saved_files. rewrite List.length_map. apply List.length_seq.
  - intros i j E. unfold quote_number in E.
    apply append_inj_l, format_02d_inj in E. exact E.
Qed.

Example saved_files_sample :
  saved_files 3 = ["quote-unit-01.json"; "quote-unit-02.json"; "quote-unit-03.json"]
  /\ quote_file 100 = "quote-unit-100.json".
Proof. split; reflexivity. Qed.
